(** * Catalog listing and cart aggregation of the e-commerce backend

    A shallow embedding of the request handlers that carry the design
    content of the repository:

    - [getProducts] (controllers/products.js): query parameters to a Prisma
      [where] / [orderBy] / [skip] / [take] specification, the page fetch,
      the count and the page metadata;
    - [addToCart] and [deleteCart] (controllers/login.js): credential
      check, look-ups and the find-then-update-or-create on the cart table.
    - [login] and [register] (controllers/login.js) with
      [sendWelcomeEmail] (email/email.js): the user table, password
      hashing, token issue and the welcome mail.

    JavaScript values are modelled as far as the handlers inspect them:
    truthiness, destructuring defaults, [parseInt], [parseFloat], [+],
    [split], [trim] and [toUpperCase] on ASCII text.  The Prisma client is
    modelled as operations on in-memory tables (lists of rows in insertion
    order) that raise a validation error when an argument does not have
    the column's type, as the client does before it sends a query. *)

From Stdlib Require Import ZArith QArith Qround List String Ascii Bool Lia.
From Stdlib Require Import Permutation Sorted.
Import ListNotations.

Local Open Scope string_scope.
Local Open Scope Z_scope.

(* ================================================================== *)
(** ** JavaScript values *)

(** The JSON values a request body can carry, restricted to what the cart
    handlers look at.  Numbers are the integral ones; [JUndefined] is a
    field that is absent. *)
Inductive jsval : Type :=
| JUndefined
| JNull
| JBool (b : bool)
| JNum (n : Z)
| JStr (s : string).

(** [!v] is [negb (truthy v)]. *)
Definition truthy (v : jsval) : bool :=
  match v with
  | JUndefined | JNull => false
  | JBool b => b
  | JNum n => negb (n =? 0)
  | JStr s => negb (s =? "")%string
  end.

(** A destructuring default [{ x = d }] applies to [undefined] only. *)
Definition with_default (v d : jsval) : jsval :=
  match v with JUndefined => d | _ => v end.

(** A query-string parameter is absent or a string; [if (p)] holds for a
    non-empty string. *)
Definition present (p : option string) : bool :=
  match p with
  | Some s => negb (s =? "")%string
  | None => false
  end.

(** The result of [parseInt]: an integer or [NaN]. *)
Inductive jsint : Type :=
| INaN
| IVal (z : Z).

(** The result of [parseFloat]: a rational (rounding to a double is left
    out), an infinity or [NaN]. *)
Inductive jsfloat : Type :=
| FNaN
| FInf (negative : bool)
| FVal (q : Q).

Definition code (c : ascii) : Z := Z.of_N (N_of_ascii c).

Definition is_digit (c : ascii) : bool := (48 <=? code c) && (code c <=? 57).

Definition digit_val (c : ascii) : Z := code c - 48.

(** The ASCII members of StrWhiteSpaceChar: TAB, LF, VT, FF, CR, SP. *)
Definition is_ws (c : ascii) : bool :=
  ((9 <=? code c) && (code c <=? 13)) || (code c =? 32).

Fixpoint skip_ws (s : string) : string :=
  match s with
  | String c r => if is_ws c then skip_ws r else s
  | EmptyString => s
  end.

(** Splits a leading sign off: [(negative, rest)]. *)
Definition take_sign (s : string) : bool * string :=
  match s with
  | String c r =>
      if (c =? "-")%char then (true, r)
      else if (c =? "+")%char then (false, r)
      else (false, s)
  | EmptyString => (false, s)
  end.

(** The longest prefix of decimal digits and what follows it. *)
Fixpoint span_digits (s : string) : string * string :=
  match s with
  | String c r =>
      if is_digit c
      then let '(d, rest) := span_digits r in (String c d, rest)
      else (EmptyString, s)
  | EmptyString => (EmptyString, EmptyString)
  end.

Fixpoint dec_value_from (acc : Z) (digits : string) : Z :=
  match digits with
  | String c r => dec_value_from (10 * acc + digit_val c) r
  | EmptyString => acc
  end.

Definition dec_value (digits : string) : Z := dec_value_from 0 digits.

(** [parseInt(s, 10)]: leading white space is skipped, a sign is read, and
    the longest digit prefix is the value; no digit gives [NaN].  With the
    radix given as 10 no [0x] prefix is recognised. *)
Definition parseInt (s : string) : jsint :=
  let '(neg, s1) := take_sign (skip_ws s) in
  let '(digits, _) := span_digits s1 in
  match digits with
  | EmptyString => INaN
  | _ => IVal (if neg then - dec_value digits else dec_value digits)
  end.

(** [n || d] for a [parseInt] result: [NaN] and [0] are falsy. *)
Definition or_default (n : jsint) (d : Z) : Z :=
  match n with
  | INaN => d
  | IVal z => if z =? 0 then d else z
  end.

Fixpoint starts_with (p s : string) : bool :=
  match p, s with
  | EmptyString, _ => true
  | String a p', String b s' => (a =? b)%char && starts_with p' s'
  | String _ _, EmptyString => false
  end.

(** The exponent part [e[+-]digits] of a decimal literal, when a digit
    follows; otherwise the literal ends before the [e]. *)
Definition exponent_part (s : string) : Z :=
  match s with
  | String c r =>
      if (c =? "e")%char || (c =? "E")%char then
        let '(neg, r1) := take_sign r in
        let '(digits, _) := span_digits r1 in
        match digits with
        | EmptyString => 0
        | _ => if neg then - dec_value digits else dec_value digits
        end
      else 0
  | EmptyString => 0
  end.

(** [parseFloat(s)]: the longest prefix that is a StrDecimalLiteral. *)
Definition parseFloat (s : string) : jsfloat :=
  let '(neg, s1) := take_sign (skip_ws s) in
  if starts_with "Infinity" s1 then FInf neg
  else
    let '(int_digits, r1) := span_digits s1 in
    let '(frac_digits, r2) :=
      match r1 with
      | String c r => if (c =? ".")%char then span_digits r else (EmptyString, r1)
      | EmptyString => (EmptyString, r1)
      end in
    match int_digits, frac_digits with
    | EmptyString, EmptyString => FNaN
    | _, _ =>
        let mantissa := dec_value (int_digits ++ frac_digits) in
        let scale := exponent_part r2 - Z.of_nat (String.length frac_digits) in
        let q := Qred (inject_Z (if neg then - mantissa else mantissa)
                       * Qpower (10 # 1) scale) in
        FVal q
    end.

(** [s.split(sep)] for a one-character separator. *)
Fixpoint split_on (sep : ascii) (s : string) : list string :=
  match s with
  | EmptyString => [EmptyString]
  | String c r =>
      if (c =? sep)%char then EmptyString :: split_on sep r
      else match split_on sep r with
           | h :: t => String c h :: t
           | [] => [String c EmptyString]
           end
  end.

Fixpoint string_rev_onto (s acc : string) : string :=
  match s with
  | EmptyString => acc
  | String c r => string_rev_onto r (String c acc)
  end.

Definition string_rev (s : string) : string := string_rev_onto s EmptyString.

(** [s.trim()] on ASCII white space. *)
Definition trim (s : string) : string :=
  string_rev (skip_ws (string_rev (skip_ws s))).

Definition upper_char (c : ascii) : ascii :=
  if (97 <=? code c) && (code c <=? 122)
  then ascii_of_N (N_of_ascii c - 32)
  else c.

(** [s.toUpperCase()] on ASCII letters. *)
Fixpoint toUpperCase (s : string) : string :=
  match s with
  | EmptyString => EmptyString
  | String c r => String (upper_char c) (toUpperCase r)
  end.

(** Decimal text of a number, as [String(n)] gives it for an integer. *)
Fixpoint pos_digits (fuel : nat) (n : Z) (acc : string) : string :=
  match fuel with
  | O => acc
  | S f =>
      let acc' := String (ascii_of_N (Z.to_N (48 + n mod 10))) acc in
      if n / 10 =? 0 then acc' else pos_digits f (n / 10) acc'
  end.

Definition number_to_string (n : Z) : string :=
  if n <? 0
  then String "-" (pos_digits (S (Z.to_nat (Z.log2 (- n)))) (- n) EmptyString)
  else pos_digits (S (Z.to_nat (Z.log2 n))) n EmptyString.

(** [a + v] where [a] is a number: numeric addition after [ToNumber] of a
    primitive that is not a string, concatenation with a string, and
    [NaN] ([None]) for [undefined]. *)
Definition js_add_num (a : Z) (v : jsval) : option jsval :=
  match v with
  | JNum b => Some (JNum (a + b))
  | JBool b => Some (JNum (a + (if b then 1 else 0)))
  | JNull => Some (JNum a)
  | JStr s => Some (JStr (number_to_string a ++ s))
  | JUndefined => None
  end.

(* ================================================================== *)
(** ** The store *)

(** Rows of the three tables the handlers touch.  The Prisma schema is not
    part of the sources; the columns are the ones the controllers read
    and write (the [data] of [createProduct], [cart.create] and the
    look-ups by [id]), with identifiers and counts as integers ([Int],
    taken unbounded) and the price as a rational ([Float]). *)
Record User : Type := mkUser {
  u_id : Z;
  u_username : string
}.

Record Product : Type := mkProduct {
  p_id : Z;
  p_name : string;
  p_description : string;
  p_price : Q;
  p_discount : Z;
  p_images : list string;
  p_categoryId : Z;
  p_subcategoryId : option Z;
  p_brandsId : Z;
  p_Colors : list string;
  p_Size : list string
}.

Record CartLine : Type := mkCartLine {
  c_id : Z;
  c_userId : Z;
  c_productId : Z;
  c_count : Z
}.

(** Tables keep their rows in insertion order; [cart_seq] is the next
    value of the cart table's autoincrement identifier. *)
Record DB : Type := mkDB {
  users : list User;
  products : list Product;
  cart : list CartLine;
  cart_seq : Z
}.

(** The [meta] object of a listing. *)
Record PageMeta : Type := mkPageMeta {
  totalProducts : Z;
  totalPages : Z;
  currentPage : Z;
  pageSize : Z
}.

(** What [res.status(s).json(b)] sends. *)
Inductive Body : Type :=
| BError (error : string)
| BMessage (message : string)
| BAdded (message : string) (product : Product)
| BListing (data : list Product) (meta : PageMeta).

Record Response : Type := mkResponse {
  status : Z;
  body : Body
}.

(* ================================================================== *)
(** ** Handlers as state-and-exception computations *)

(** What an awaited call can throw inside a handler's [try]. *)
Inductive error : Type :=
| ValidationError     (* PrismaClientValidationError *)
| RecordNotFound      (* Prisma P2025 *)
| JsonWebTokenError.  (* thrown by jwt.verify *)

Inductive outcome (A : Type) : Type :=
| Value (a : A)
| Raise (e : error).

Arguments Value {A} a.
Arguments Raise {A} e.

Definition M (A : Type) : Type := DB -> outcome A * DB.

Definition ret {A} (a : A) : M A := fun db => (Value a, db).

Definition raise {A} (e : error) : M A := fun db => (Raise e, db).

Definition bind {A B} (m : M A) (k : A -> M B) : M B :=
  fun db =>
    match m db with
    | (Value a, db') => k a db'
    | (Raise e, db') => (Raise e, db')
    end.

Definition get_db : M DB := fun db => (Value db, db).

Definition put_db (db' : DB) : M unit := fun _ => (Value tt, db').

Declare Scope handler_scope.
Delimit Scope handler_scope with handler.

Notation "x <- m ;; k" := (bind m (fun x => k))
  (at level 61, m at next level, right associativity) : handler_scope.
Notation "m ;;; k" := (bind m (fun _ => k))
  (at level 61, right associativity) : handler_scope.

(** [if (c) return res.status(..).json(..);] followed by the rest. *)
Notation "'reply_if' c 'then' r 'else_continue' k" :=
  (if c then ret r else k)
  (at level 61, c at next level, r at next level, right associativity)
  : handler_scope.

(** [try { body } catch (error) { res.status(500).json(..) }]. *)
Definition try_catch (body : M Response) (on_error : Response) : DB -> Response * DB :=
  fun db =>
    match body db with
    | (Value r, db') => (r, db')
    | (Raise _, db') => (on_error, db')
    end.

Definition json (s : Z) (b : Body) : Response := mkResponse s b.

(* ================================================================== *)
(** ** The Prisma client *)

(** The client checks every argument against the column type of the
    schema before it queries: an [Int] column accepts a JavaScript number
    and nothing else.  A string, even one that spells a number, raises
    [PrismaClientValidationError]; the controllers that read an id from
    [req.params] convert it with [Number] or [parseInt] for that reason. *)
Definition int_arg (v : jsval) : M Z :=
  match v with
  | JNum n => ret n
  | _ => raise ValidationError
  end.

Definition int_arg_opt (v : option jsval) : M Z :=
  match v with
  | Some w => int_arg w
  | None => raise ValidationError
  end.

(** [prisma.user.findUnique({ where: { id } })]. *)
Definition user_findUnique (id : jsval) : M (option User) :=
  (n <- int_arg id ;;
   db <- get_db ;;
   ret (find (fun u => u_id u =? n) (users db)))%handler.

(** [prisma.product.findUnique({ where: { id } })]. *)
Definition product_findUnique (id : jsval) : M (option Product) :=
  (n <- int_arg id ;;
   db <- get_db ;;
   ret (find (fun p => p_id p =? n) (products db)))%handler.

Definition cart_key (userId productId : Z) (l : CartLine) : bool :=
  (c_userId l =? userId) && (c_productId l =? productId).

(** [prisma.cart.findFirst({ where: { userId, productId } })]: the first
    row in table order that has both values. *)
Definition cart_findFirst (userId productId : jsval) : M (option CartLine) :=
  (u <- int_arg userId ;;
   p <- int_arg productId ;;
   db <- get_db ;;
   ret (find (cart_key u p) (cart db)))%handler.

Definition set_count (n : Z) (l : CartLine) : CartLine :=
  mkCartLine (c_id l) (c_userId l) (c_productId l) n.

Fixpoint update_row (id n : Z) (rows : list CartLine) : list CartLine :=
  match rows with
  | [] => []
  | l :: t => if c_id l =? id then set_count n l :: t else l :: update_row id n t
  end.

(** [prisma.cart.update({ where: { id }, data: { count } })]: rewrites the
    [count] column of the row with that identifier; no such row is
    P2025. *)
Definition cart_update (id : Z) (count : option jsval) : M CartLine :=
  (n <- int_arg_opt count ;;
   db <- get_db ;;
   match find (fun l => c_id l =? id) (cart db) with
   | None => raise RecordNotFound
   | Some l =>
       put_db (mkDB (users db) (products db) (update_row id n (cart db)) (cart_seq db)) ;;;
       ret (set_count n l)
   end)%handler.

(** [prisma.cart.create({ data: { userId, productId, count } })]: appends a
    row under the next identifier. *)
Definition cart_create (userId productId : Z) (count : jsval) : M CartLine :=
  (n <- int_arg count ;;
   db <- get_db ;;
   let l := mkCartLine (cart_seq db) userId productId n in
   put_db (mkDB (users db) (products db) (cart db ++ [l]) (cart_seq db + 1)) ;;;
   ret l)%handler.

Fixpoint delete_row (id : Z) (rows : list CartLine) : list CartLine :=
  match rows with
  | [] => []
  | l :: t => if c_id l =? id then t else l :: delete_row id t
  end.

(** [prisma.cart.delete({ where: { id } })]. *)
Definition cart_delete (id : Z) : M CartLine :=
  (db <- get_db ;;
   match find (fun l => c_id l =? id) (cart db) with
   | None => raise RecordNotFound
   | Some l =>
       put_db (mkDB (users db) (products db) (delete_row id (cart db)) (cart_seq db)) ;;;
       ret l
   end)%handler.

(* ================================================================== *)
(** ** Catalog listing: [getProducts] *)

(** [req.query] of [GET /products/all]: every parameter is absent or a
    string. *)
Record Query : Type := mkQuery {
  q_page : option string;
  q_limit : option string;
  q_sortBy : option string;
  q_sortOrder : option string;
  q_categoryId : option string;
  q_subcategoryId : option string;
  q_brandId : option string;
  q_color : option string;
  q_size : option string;
  q_minPrice : option string;
  q_maxPrice : option string;
  q_discount : option string
}.

(** [{ gte, lte }] on the price. *)
Record PriceClause : Type := mkPriceClause {
  gte : option jsfloat;
  lte : option jsfloat
}.

Inductive DiscountClause : Type :=
| DiscountGt0    (* { gt: 0 } *)
| DiscountIs0.   (* 0 *)

(** The [where] object: a field is [None] when the handler never assigns
    it. *)
Record Where : Type := mkWhere {
  w_categoryId : option jsint;
  w_subcategoryId : option jsint;
  w_brandsId : option jsint;
  w_Colors : option (list string);
  w_Size : option (list string);
  w_price : option PriceClause;
  w_discount : option DiscountClause
}.

Inductive Direction : Type := Asc | Desc.

(** [parseInt(page, 10) || 1] with [page = 1] when the parameter is
    absent. *)
Definition pageNumberOf (q : Query) : Z :=
  or_default (match q_page q with Some s => parseInt s | None => IVal 1 end) 1.

(** [parseInt(limit, 10) || 10] with [limit = 10] when absent. *)
Definition pageSizeOf (q : Query) : Z :=
  or_default (match q_limit q with Some s => parseInt s | None => IVal 10 end) 10.

(** [{ [sortBy]: sortOrder === 'asc' ? 'asc' : 'desc' }] with the defaults
    ['price'] and ['asc']. *)
Definition orderByOf (q : Query) : string * Direction :=
  (match q_sortBy q with Some f => f | None => "price" end,
   match q_sortOrder q with
   | Some o => if (o =? "asc")%string then Asc else Desc
   | None => Asc
   end).

Definition int_clause (p : option string) : option jsint :=
  match p with
  | Some s => if present p then Some (parseInt s) else None
  | None => None
  end.

Definition list_clause (p : option string) : option (list string) :=
  match p with
  | Some s =>
      if present p
      then Some (map (fun c => toUpperCase (trim c)) (split_on "," s))
      else None
  | None => None
  end.

Definition raw (p : option string) : string :=
  match p with Some s => s | None => EmptyString end.

Definition price_clause (minPrice maxPrice : option string) : option PriceClause :=
  if present minPrice && present maxPrice
  then Some (mkPriceClause (Some (parseFloat (raw minPrice)))
                           (Some (parseFloat (raw maxPrice))))
  else if present minPrice
  then Some (mkPriceClause (Some (parseFloat (raw minPrice))) None)
  else if present maxPrice
  then Some (mkPriceClause None (Some (parseFloat (raw maxPrice))))
  else None.

Definition discount_clause (p : option string) : option DiscountClause :=
  match p with
  | Some s =>
      if (s =? "true")%string then Some DiscountGt0
      else if (s =? "false")%string then Some DiscountIs0
      else None
  | None => None
  end.

(** The [where] object as the handler fills it, one [if] per filter. *)
Definition buildWhere (q : Query) : Where :=
  mkWhere (int_clause (q_categoryId q))
          (int_clause (q_subcategoryId q))
          (int_clause (q_brandId q))
          (list_clause (q_color q))
          (list_clause (q_size q))
          (price_clause (q_minPrice q) (q_maxPrice q))
          (discount_clause (q_discount q)).

(** *** Evaluating a query specification *)

Definition int_ok (c : option jsint) : bool :=
  match c with Some INaN => false | _ => true end.

Definition float_ok (c : option jsfloat) : bool :=
  match c with Some (FVal _) | None => true | Some _ => false end.

(** A numeric argument has to be a finite number: [NaN] and the
    infinities are taken to be refused like an argument of the wrong
    type. *)
Definition where_ok (w : Where) : bool :=
  int_ok (w_categoryId w) && int_ok (w_subcategoryId w) && int_ok (w_brandsId w)
  && match w_price w with
     | Some pc => float_ok (gte pc) && float_ok (lte pc)
     | None => true
     end.

Definition int_matches (c : option jsint) (v : Z) : bool :=
  match c with Some (IVal z) => v =? z | Some INaN => false | None => true end.

Definition opt_int_matches (c : option jsint) (v : option Z) : bool :=
  match c, v with
  | None, _ => true
  | Some (IVal z), Some x => x =? z
  | Some _, _ => false
  end.

(** [hasSome]: the column shares a value with the list. *)
Definition hasSome (c : option (list string)) (col : list string) : bool :=
  match c with
  | Some vs => existsb (fun v => existsb (String.eqb v) col) vs
  | None => true
  end.

Definition lower_ok (b : option jsfloat) (x : Q) : bool :=
  match b with Some (FVal q) => Qle_bool q x | Some _ => false | None => true end.

Definition upper_ok (b : option jsfloat) (x : Q) : bool :=
  match b with Some (FVal q) => Qle_bool x q | Some _ => false | None => true end.

Definition price_matches (c : option PriceClause) (x : Q) : bool :=
  match c with
  | Some pc => lower_ok (gte pc) x && upper_ok (lte pc) x
  | None => true
  end.

Definition discount_matches (c : option DiscountClause) (d : Z) : bool :=
  match c with
  | Some DiscountGt0 => 0 <? d
  | Some DiscountIs0 => d =? 0
  | None => true
  end.

(** The filter predicate a [where] object stands for: the conjunction of
    its clauses. *)
Definition matches (w : Where) (p : Product) : bool :=
  int_matches (w_categoryId w) (p_categoryId p)
  && opt_int_matches (w_subcategoryId w) (p_subcategoryId p)
  && int_matches (w_brandsId w) (p_brandsId p)
  && hasSome (w_Colors w) (p_Colors p)
  && hasSome (w_Size w) (p_Size p)
  && price_matches (w_price w) (p_price p)
  && discount_matches (w_discount w) (p_discount p).

Fixpoint string_leb (a b : string) : bool :=
  match a, b with
  | EmptyString, _ => true
  | String _ _, EmptyString => false
  | String x a', String y b' =>
      if code x <? code y then true
      else if code y <? code x then false
      else string_leb a' b'
  end.

(** NULL sorts as the largest value. *)
Definition opt_leb (a b : option Z) : bool :=
  match a, b with
  | _, None => true
  | None, Some _ => false
  | Some x, Some y => x <=? y
  end.

(** The ascending order of a scalar column; a name that is no scalar
    column of the model is refused by the client. *)
Definition column_leb (field : string) : option (Product -> Product -> bool) :=
  if (field =? "price")%string then Some (fun a b => Qle_bool (p_price a) (p_price b))
  else if (field =? "id")%string then Some (fun a b => p_id a <=? p_id b)
  else if (field =? "name")%string then Some (fun a b => string_leb (p_name a) (p_name b))
  else if (field =? "description")%string
       then Some (fun a b => string_leb (p_description a) (p_description b))
  else if (field =? "discount")%string then Some (fun a b => p_discount a <=? p_discount b)
  else if (field =? "categoryId")%string
       then Some (fun a b => p_categoryId a <=? p_categoryId b)
  else if (field =? "subcategoryId")%string
       then Some (fun a b => opt_leb (p_subcategoryId a) (p_subcategoryId b))
  else if (field =? "brandsId")%string then Some (fun a b => p_brandsId a <=? p_brandsId b)
  else None.

Definition order_leb (o : string * Direction) : option (Product -> Product -> bool) :=
  match column_leb (fst o), snd o with
  | Some leb, Asc => Some leb
  | Some leb, Desc => Some (fun a b => leb b a)
  | None, _ => None
  end.

Section Sorting.
Context {A : Type} (leb : A -> A -> bool).

Fixpoint insert_by (x : A) (l : list A) : list A :=
  match l with
  | [] => [x]
  | y :: t => if leb x y then x :: l else y :: insert_by x t
  end.

(** Stable: rows that compare equal keep their table order. *)
Definition sort_by (l : list A) : list A := fold_right insert_by [] l.
End Sorting.

(** [skip] and [take] on the ordered rows.  A negative [take] counts from
    the end of the ordering; a negative [skip] is refused (see
    [findMany]). *)
Definition window {A} (skip take : Z) (rows : list A) : list A :=
  if take <? 0
  then rev (firstn (Z.to_nat (- take)) (skipn (Z.to_nat skip) (rev rows)))
  else firstn (Z.to_nat take) (skipn (Z.to_nat skip) rows).

(** [prisma.product.findMany({ where, orderBy, skip, take, include })].
    The included relations are left out of the rows. *)
Definition findMany (w : Where) (o : string * Direction) (skip take : Z)
  : M (list Product) :=
  (db <- get_db ;;
   if negb (where_ok w) || (skip <? 0) then raise ValidationError
   else match order_leb o with
        | None => raise ValidationError
        | Some leb => ret (window skip take (sort_by leb (filter (matches w) (products db))))
        end)%handler.

(** [prisma.product.count({ where })]. *)
Definition count (w : Where) : M Z :=
  (db <- get_db ;;
   if negb (where_ok w) then raise ValidationError
   else ret (Z.of_nat (List.length (filter (matches w) (products db)))))%handler.

(** [Math.ceil(a / b)] on integers, computed on the exact quotient. *)
Definition ceil_div (a b : Z) : Z := Qceiling (inject_Z a / inject_Z b).

(** The [meta] object of the response. *)
Definition pageMeta (total size page : Z) : PageMeta :=
  mkPageMeta total (ceil_div total size) page size.

Definition getProducts (q : Query) : DB -> Response * DB :=
  try_catch
    (let pageNumber := pageNumberOf q in
     let pageSize := pageSizeOf q in
     let orderBy := orderByOf q in
     let where_ := buildWhere q in
     found <- findMany where_ orderBy ((pageNumber - 1) * pageSize) pageSize ;;
     totalProducts <- count where_ ;;
     ret (json 200 (BListing found (pageMeta totalProducts pageSize pageNumber))))%handler
    (json 500 (BError "Failed to fetch products")).

(* ================================================================== *)
(** ** Cart aggregation: [addToCart] and [deleteCart] *)

(** A request to the cart routes: the [authorization] header, the body
    fields [productId] and [count] of [POST /cart/add] and the route
    parameter [itemId] of [DELETE /cart/delete/:itemId].  Route
    parameters are strings. *)
Record Request : Type := mkRequest {
  req_authorization : option string;
  req_productId : jsval;
  req_count : jsval;
  req_itemId : option string
}.

Definition user_by_id (id : Z) (db : DB) : option User :=
  find (fun u => u_id u =? id) (users db).

Definition product_by_id (id : Z) (db : DB) : option Product :=
  find (fun p => p_id p =? id) (products db).

(** The store with the cart table and its sequence replaced. *)
Definition with_cart (db : DB) (rows : list CartLine) (seq : Z) : DB :=
  mkDB (users db) (products db) rows seq.

(** A row with its [count] replaced when it has the identifier. *)
Definition recount (id n : Z) (l : CartLine) : CartLine :=
  if c_id l =? id then set_count n l else l.

(** The count an add request asks for: the number in the body, 1 when the
    field is absent. *)
Definition requested_count (req : Request) : option Z :=
  match with_default (req_count req) (JNum 1) with
  | JNum c => Some c
  | _ => None
  end.

Section CartHandlers.

(** [jwt.verify(token, process.env.JWT_SECRET)] for the secret of the
    deployment: the [userid] of the payload of a token that is well
    formed, signed with the secret and not expired, [None] when the call
    throws.  Tokens are issued by [login] and [register] only, with the
    payload [{ userid: user.id }]. *)
Variable jwt_verify : string -> option Z.

(** [jwt.verify(authHeader.split(' ')[1], secret)]: an [undefined] token
    throws as well. *)
Definition verify_header (authHeader : string) : M Z :=
  match nth_error (split_on " " authHeader) 1 with
  | Some token =>
      match jwt_verify token with
      | Some userid => ret userid
      | None => raise JsonWebTokenError
      end
  | None => raise JsonWebTokenError
  end.

Definition addToCart (req : Request) : DB -> Response * DB :=
  try_catch
    (let productId := req_productId req in
     let count := with_default (req_count req) (JNum 1) in
     reply_if negb (truthy productId)
       then json 400 (BError "Product ID is required") else_continue
     reply_if negb (present (req_authorization req))
       then json 401 (BError "Unauthorized: No token provided") else_continue
     decoded <- verify_header (raw (req_authorization req)) ;;
     user <- user_findUnique (JNum decoded) ;;
     match user with
     | None => ret (json 401 (BError "Unauthorized: Invalid user"))
     | Some user =>
     product <- product_findUnique productId ;;
     match product with
     | None => ret (json 404 (BError "Product not found"))
     | Some product =>
     cartItem <- cart_findFirst (JNum (u_id user)) (JNum (p_id product)) ;;
     match cartItem with
     | Some cartItem =>
         cart_update (c_id cartItem) (js_add_num (c_count cartItem) count)
     | None =>
         cart_create (u_id user) (p_id product) count
     end ;;;
     ret (json 200 (BAdded "Product added to cart" product))
     end end)%handler
    (json 500 (BError "Failed to add product to cart")).

Definition deleteCart (req : Request) : DB -> Response * DB :=
  try_catch
    (let itemId := req_itemId req in
     reply_if negb (present itemId)
       then json 400 (BError "Item ID is required") else_continue
     reply_if negb (present (req_authorization req))
       then json 401 (BError "Unauthorized: No token provided") else_continue
     decoded <- verify_header (raw (req_authorization req)) ;;
     user <- user_findUnique (JNum decoded) ;;
     match user with
     | None => ret (json 401 (BError "Unauthorized: Invalid user"))
     | Some user =>
     cartItem <- cart_findFirst (JNum (u_id user)) (JStr (raw itemId)) ;;
     match cartItem with
     | None => ret (json 404 (BError "Item not found in cart"))
     | Some cartItem =>
     cart_delete (c_id cartItem) ;;;
     ret (json 200 (BMessage "Item removed from cart successfully"))
     end end)%handler
    (json 500 (BError "Failed to remove item from cart")).

(** The user id the credential of a request resolves to: the header is
    present and its second space-separated part verifies. *)
Definition bearer (req : Request) : option Z :=
  if present (req_authorization req)
  then match nth_error (split_on " " (raw (req_authorization req))) 1 with
       | Some token => jwt_verify token
       | None => None
       end
  else None.


(** *** Sequential executions *)



End CartHandlers.

(** *** Predicates on the cart table *)

(** The lines of the pair (user, product). *)
Definition lines_of (userId productId : Z) (db : DB) : list CartLine :=
  filter (cart_key userId productId) (cart db).


(** The identifier is a key of the cart table and lies below the next
    value of the sequence. *)
Definition cart_keyed (db : DB) : Prop :=
  NoDup (map c_id (cart db)) /\ Forall (fun l => c_id l < cart_seq db) (cart db).

(* ================================================================== *)
(** ** Reading a listing *)

(** The [data] array of a response, empty when it has none. *)
Definition listing_data (r : Response) : list Product :=
  match body r with
  | BListing data _ => data
  | _ => []
  end.


(* ================================================================== *)
(** ** Accounts: [login] and [register] *)

(** A row of the user table with the columns [register] writes.  The
    cart handlers read the [id] of a row only; [account_user] is the row
    as they see it. *)
Record Account : Type := mkAccount {
  a_id : Z;
  a_name : string;
  a_username : string;
  a_user_img : string;
  a_phone : string;
  a_address : option string;
  a_dob : option Z;
  a_gender : string;
  a_email : string;
  a_password : string
}.


(** What [transporter.sendMail] is given. *)
Record Mail : Type := mkMail {
  mail_from : string;
  mail_to : string;
  mail_subject : string;
  mail_text : string
}.

(** The user table in insertion order, the next value of its
    autoincrement identifier, and the mails the transport accepted. *)
Record Accounts : Type := mkAccounts {
  accounts : list Account;
  account_seq : Z;
  outbox : list Mail
}.


(** What a request meets besides the store: the clock, the salt
    [bcrypt.hash] draws, and whether the mail transport delivers. *)
Record Env : Type := mkEnv {
  now : Z;
  salt : string;
  mail_up : bool
}.

(** [req.body] of [POST /login] and [POST /register], its fields being
    primitive values. *)
Record AccountRequest : Type := mkAccountRequest {
  b_name : jsval;
  b_user_img : jsval;
  b_username : jsval;
  b_phone : jsval;
  b_address : jsval;
  b_dob : jsval;
  b_gender : jsval;
  b_email : jsval;
  b_password : jsval
}.

Inductive AccountBody : Type :=
| AError (error : string)
| ALoggedIn (token : string) (user : Account) (user_cart : list CartLine)
| ARegistered (token : string) (message : string) (user : Account).

Record AccountResponse : Type := mkAccountResponse {
  a_status : Z;
  a_body : AccountBody
}.

(** Computations on the user table that can throw. *)
Definition MA (A : Type) : Type := Accounts -> outcome A * Accounts.

Definition retA {A} (a : A) : MA A := fun s => (Value a, s).

Definition raiseA {A} (e : error) : MA A := fun s => (Raise e, s).

Definition bindA {A B} (m : MA A) (k : A -> MA B) : MA B :=
  fun s =>
    match m s with
    | (Value a, s') => k a s'
    | (Raise e, s') => (Raise e, s')
    end.

Definition get_accounts : MA Accounts := fun s => (Value s, s).

Definition put_accounts (s' : Accounts) : MA unit := fun _ => (Value tt, s').

Declare Scope account_scope.
Delimit Scope account_scope with account.

Notation "x <- m ;; k" := (bindA m (fun x => k))
  (at level 61, m at next level, right associativity) : account_scope.
Notation "m ;;; k" := (bindA m (fun _ => k))
  (at level 61, right associativity) : account_scope.
Notation "'reply_if' c 'then' r 'else_continue' k" :=
  (if c then retA r else k)
  (at level 61, c at next level, r at next level, right associativity)
  : account_scope.

Definition try_catchA (body : MA AccountResponse) (on_error : AccountResponse)
  : Accounts -> AccountResponse * Accounts :=
  fun s =>
    match body s with
    | (Value r, s') => (r, s')
    | (Raise _, s') => (on_error, s')
    end.

Definition jsonA (s : Z) (b : AccountBody) : AccountResponse := mkAccountResponse s b.

(** A [String] column, and the functions of [bcrypt], accept a string and
    nothing else. *)
Definition str_arg (v : jsval) : MA string :=
  match v with
  | JStr s => retA s
  | _ => raiseA ValidationError
  end.

(** [v || d] for a column that holds a string. *)
Definition str_or (v : jsval) (d : string) : MA string :=
  if truthy v then str_arg v else retA d.

(** [v || null] for a nullable string column. *)
Definition str_or_null (v : jsval) : MA (option string) :=
  if truthy v then (s <- str_arg v ;; retA (Some s))%account else retA None.

(** [prisma.user.findFirst({ where: { username }, include: { cart: true } })]. *)
Definition user_findFirst_username (username : jsval) : MA (option Account) :=
  (u <- str_arg username ;;
   s <- get_accounts ;;
   retA (find (fun a => (a_username a =? u)%string) (accounts s)))%account.

(** [prisma.user.findFirst({ where: { OR: [{ username }, { email }] } })]. *)
Definition user_findFirst_taken (username email : jsval) : MA (option Account) :=
  (u <- str_arg username ;;
   e <- str_arg email ;;
   s <- get_accounts ;;
   retA (find (fun a => (a_username a =? u)%string || (a_email a =? e)%string)
              (accounts s)))%account.

Definition nl : string := String "010"%char EmptyString.

Section AccountHandlers.

(** [jwt.sign({ userid }, process.env.JWT_SECRET, { expiresIn })] at a
    reading of the clock. *)
Variable jwt_sign : Z -> Z -> string.

(** [bcrypt.hash(password, 10)] with the salt it drew, and
    [bcrypt.compare(password, hash)]. *)
Variable bcrypt_hash : string -> string -> string.
Variable bcrypt_compare : string -> string -> bool.

(** [new Date(s)] for a string: the time value, [None] for an invalid
    date. *)
Variable new_Date : string -> option Z.

(** What the schema, which is not part of the sources, asks of a new row
    beyond the column types: the values of the gender enumeration and
    the columns declared unique. *)
Variable schema_accepts : Account -> list Account -> bool.

(** [process.env.EMAIL_USER]. *)
Variable EMAIL_USER : string.

(** [new Date(v)] for a truthy body value; the client refuses an invalid
    date. *)
Definition date_arg (v : jsval) : MA Z :=
  match v with
  | JStr s =>
      match new_Date s with
      | Some t => retA t
      | None => raiseA ValidationError
      end
  | JNum n =>
      if Z.abs n <=? 8640000000000000 then retA n else raiseA ValidationError
  | JBool b => retA (if b then 1 else 0)
  | JNull => retA 0
  | JUndefined => raiseA ValidationError
  end.

(** [gender.toUpperCase()]: throws (a [TypeError]) for a value that is no
    string; the [catch] does not tell one thrown value from another. *)
Definition upper_arg (v : jsval) : MA string :=
  match v with
  | JStr s => retA (toUpperCase s)
  | _ => raiseA ValidationError
  end.

(** [prisma.user.create({ data })]: appends the row under the next
    identifier when the schema accepts it. *)
Definition user_create (name username user_img phone : string)
    (address : option string) (dob : option Z) (gender email password : string)
  : MA Account :=
  (s <- get_accounts ;;
   let a := mkAccount (account_seq s) name username user_img phone address dob
                      gender email password in
   if schema_accepts a (accounts s)
   then put_accounts (mkAccounts (accounts s ++ [a]) (account_seq s + 1) (outbox s)) ;;;
        retA a
   else raiseA ValidationError)%account.

(** The [mailOptions] of [sendWelcomeEmail]. *)
Definition mailOptions (email name : string) : Mail :=
  mkMail EMAIL_USER email "Welcome to Our Service!"
    ("Hello " ++ name ++ "," ++ nl ++ nl
     ++ "Thank you for registering with us. We're excited to have you on board!"
     ++ nl ++ nl ++ "Best regards," ++ nl ++ "Your Service Team").

(** [sendWelcomeEmail(email, name)] of email/email.js: a failure of the
    transport is logged and goes no further. *)
Definition sendWelcomeEmail (env : Env) (email name : string) : MA unit :=
  if mail_up env
  then (s <- get_accounts ;;
        put_accounts (mkAccounts (accounts s) (account_seq s)
                        (outbox s ++ [mailOptions email name])))%account
  else retA tt.

Definition login (env : Env) (cart_rows : list CartLine) (req : AccountRequest)
  : Accounts -> AccountResponse * Accounts :=
  try_catchA
    (let username := b_username req in
     let password := b_password req in
     reply_if negb (truthy username) || negb (truthy password)
       then jsonA 400 (AError "Username and password are required") else_continue
     user <- user_findFirst_username username ;;
     match user with
     | None => retA (jsonA 401 (AError "Invalid username or password"))
     | Some user =>
     password <- str_arg password ;;
     let passwordMatch := bcrypt_compare password (a_password user) in
     reply_if negb passwordMatch
       then jsonA 401 (AError "Invalid username or password") else_continue
     let token := jwt_sign (now env) (a_id user) in
     retA (jsonA 200 (ALoggedIn token user
                        (filter (fun l => c_userId l =? a_id user) cart_rows)))
     end)%account
    (jsonA 500 (AError "Failed to login")).

Definition default_user_img : string :=
  "https://i.pinimg.com/originals/1f/28/c6/1f28c68d2c35f389966b5a363b992d06.png".

Definition register (env : Env) (req : AccountRequest)
  : Accounts -> AccountResponse * Accounts :=
  try_catchA
    (reply_if negb (truthy (b_name req)) || negb (truthy (b_username req))
              || negb (truthy (b_phone req)) || negb (truthy (b_gender req))
              || negb (truthy (b_email req)) || negb (truthy (b_password req))
       then jsonA 400 (AError "All required fields must be filled") else_continue
     existingUser <- user_findFirst_taken (b_username req) (b_email req) ;;
     match existingUser with
     | Some _ => retA (jsonA 400 (AError "Username or email is already taken"))
     | None =>
     password <- str_arg (b_password req) ;;
     let hashedPassword := bcrypt_hash (salt env) password in
     user_img <- str_or (b_user_img req) default_user_img ;;
     address <- str_or_null (b_address req) ;;
     dob <- (if truthy (b_dob req)
             then (t <- date_arg (b_dob req) ;; retA (Some t))
             else retA None) ;;
     gender <- upper_arg (b_gender req) ;;
     name <- str_arg (b_name req) ;;
     username <- str_arg (b_username req) ;;
     phone <- str_arg (b_phone req) ;;
     email <- str_arg (b_email req) ;;
     newUser <- user_create name username user_img phone address dob gender email
                            hashedPassword ;;
     let token := jwt_sign (now env) (a_id newUser) in
     sendWelcomeEmail env (a_email newUser) (a_name newUser) ;;;
     retA (jsonA 201 (ARegistered token "User registered successfully" newUser))
     end)%account
    (jsonA 500 (AError "Failed to register user")).

(** The six required fields of a registration, given as non-empty
    strings. *)
Definition required_text (req : AccountRequest)
    (name username phone gender email password : string) : Prop :=
  b_name req = JStr name /\ b_username req = JStr username
  /\ b_phone req = JStr phone /\ b_gender req = JStr gender
  /\ b_email req = JStr email /\ b_password req = JStr password
  /\ name <> "" /\ username <> "" /\ phone <> "" /\ gender <> ""
  /\ email <> "" /\ password <> "".


End AccountHandlers.


(** User names and e-mail addresses are not shared. *)
Definition names_unique (s : Accounts) : Prop :=
  NoDup (map a_username (accounts s)) /\ NoDup (map a_email (accounts s)).

(* ================================================================== *)
(** ** Sample data *)

(** Listing requests that set only the parameters named. *)
Definition paged (page limit : option string) : Query :=
  mkQuery page limit None None None None None None None None None None.

Definition filtered (categoryId brandId minPrice : option string) : Query :=
  mkQuery None None None None categoryId None brandId None None minPrice None None.

(** The ascending order of the default sort column. *)
Definition price_leb (a b : Product) : bool := Qle_bool (p_price a) (p_price b).

(** The request of the sample scenario:
    [?categoryId=2&minPrice=10&maxPrice=50&page=2&limit=5]. *)
Definition sample_query : Query :=
  mkQuery (Some "2") (Some "5") None None (Some "2") None None None None
          (Some "10") (Some "50") None.

(** The filter the sample request asks for. *)
Definition sample_filter (p : Product) : bool :=
  (p_categoryId p =? 2) && Qle_bool (10 # 1) (p_price p) && Qle_bool (p_price p) (50 # 1).

(** A verifier that knows two tokens: one of the stored user 1 and one
    issued to user 9, who is no longer stored. *)
Definition sample_verify (token : string) : option Z :=
  if (token =? "tok-ann")%string then Some 1
  else if (token =? "tok-gone")%string then Some 9
  else None.

Definition sample_product (id categoryId : Z) (price : Q) : Product :=
  mkProduct id "item" "" price 0 [] categoryId None 1 [] [].

(** Fourteen products, twelve of them in category 2 with a price within
    [10, 50]. *)
Definition sample_products : list Product :=
  [sample_product 1 2 (12 # 1); sample_product 2 2 (48 # 1);
   sample_product 3 2 (30 # 1); sample_product 4 3 (20 # 1);
   sample_product 5 2 (10 # 1); sample_product 6 2 (50 # 1);
   sample_product 7 2 (25 # 1); sample_product 8 2 (44 # 1);
   sample_product 9 2 (60 # 1); sample_product 10 2 (18 # 1);
   sample_product 11 2 (73 # 2); sample_product 12 2 (21 # 1);
   sample_product 13 2 (15 # 1); sample_product 14 2 (40 # 1)].

Definition sample_db : DB := mkDB [mkUser 1 "ann"] sample_products [] 1.

(** The same store after user 1 put two of product 7 in the cart. *)
Definition sample_db_with_line : DB :=
  mkDB [mkUser 1 "ann"] sample_products [mkCartLine 1 1 7 2; mkCartLine 2 4 7 1] 3.

(** [POST /cart/add] with the given header and body. *)
Definition add_req (authorization : option string) (productId count : jsval) : Request :=
  mkRequest authorization productId count None.

(** [DELETE /cart/delete/:itemId] with the given header. *)
Definition delete_req (authorization : option string) (itemId : string) : Request :=
  mkRequest authorization JUndefined JUndefined (Some itemId).

(** Collaborators for the sample accounts: a signer and a hash that only
    tag their input. *)
Definition sample_sign (clock userid : Z) : string :=
  if userid =? 1 then "tok-ann" else "tok-gone".

Definition sample_hash (salt0 password : string) : string :=
  "$2b$" ++ salt0 ++ "$" ++ password.

Definition sample_compare (password hash : string) : bool :=
  (hash =? sample_hash "s4lt" password)%string.

Definition sample_Date (s : string) : option Z :=
  if (s =? "2000-01-01")%string then Some 946684800000 else None.

Definition sample_schema (a : Account) (rows : list Account) : bool := true.

(** The user table of [sample_db] with its full rows. *)
Definition sample_accounts : Accounts :=
  mkAccounts
    [mkAccount 1 "Ann" "ann" default_user_img "555-0100" None None "FEMALE"
               "ann@example.org" (sample_hash "s4lt" "opensesame")]
    2 [].

Definition sample_env : Env := mkEnv 1700000000 "s4lt" true.

(** A login with the given user name and password. *)
Definition login_req (username password : jsval) : AccountRequest :=
  mkAccountRequest JUndefined JUndefined username JUndefined JUndefined JUndefined
                   JUndefined JUndefined password.

(** A registration with the required fields only. *)
Definition register_req (name username phone gender email password : string)
  : AccountRequest :=
  mkAccountRequest (JStr name) JUndefined (JStr username) (JStr phone) JUndefined
                   JUndefined (JStr gender) (JStr email) (JStr password).

(** A listing in descending order of price, three to a page. *)
Definition descending_query : Query :=
  mkQuery None (Some "3") None (Some "down") None None None None None None None None.

(* ================================================================== *)
(** ** The JavaScript functions on sample inputs *)

Example parseInt_samples :
  parseInt "12" = IVal 12 /\ parseInt "  -7px" = IVal (-7) /\
  parseInt "abc" = INaN /\ parseInt "" = INaN /\ parseInt "0" = IVal 0 /\
  parseInt "+" = INaN /\ parseInt "1e3" = IVal 1.
Proof. repeat split; reflexivity. Qed.

Example parseFloat_samples :
  parseFloat "10" = FVal (10 # 1) /\ parseFloat "12.50" = FVal (25 # 2) /\
  parseFloat ".5e1x" = FVal (5 # 1) /\ parseFloat "abc" = FNaN /\
  parseFloat "-Infinity" = FInf true /\ parseFloat "." = FNaN /\
  parseFloat "5." = FVal (5 # 1) /\ parseFloat "2e" = FVal (2 # 1).
Proof. repeat split; reflexivity. Qed.

Example string_samples :
  split_on " " "Bearer abc" = ["Bearer"; "abc"] /\
  split_on "," "red, blue" = ["red"; " blue"] /\
  split_on "," "" = [""] /\
  toUpperCase (trim "  blue ") = "BLUE" /\
  number_to_string 120 = "120" /\ number_to_string (-5) = "-5" /\
  number_to_string 0 = "0".
Proof. repeat split; reflexivity. Qed.

(* ================================================================== *)
(** ** Page metadata *)






(* ================================================================== *)
(** ** Pagination parameters *)

(** C6, as stated, fails on a zero: [page=0] and [limit=0] are not handed
    to the query, [0] is falsy and the defaults 1 and 10 replace it. *)
Lemma zero_page_and_limit_replaced :
  parseInt "0" = IVal 0
  /\ pageNumberOf (paged (Some "0") (Some "0")) = 1
  /\ pageSizeOf (paged (Some "0") (Some "0")) = 10
  /\ pageNumberOf (paged (Some "0") (Some "0")) <> 0
  /\ pageSizeOf (paged (Some "0") (Some "0")) <> 0.
Proof. repeat split; try reflexivity; discriminate. Qed.

(** C6, amended.  [page] and [limit] default to 1 and 10 when absent; a
    value [parseInt] reads no number from, or reads zero from, falls back
    to the default without an error; every other number, negative ones
    included, is used as it is. *)
Theorem pagination_defaults (q : Query) :
  (q_page q = None -> pageNumberOf q = 1)
  /\ (q_limit q = None -> pageSizeOf q = 10)
  /\ (forall s, q_page q = Some s -> parseInt s = INaN -> pageNumberOf q = 1)
  /\ (forall s, q_limit q = Some s -> parseInt s = INaN -> pageSizeOf q = 10)
  /\ (forall s, q_page q = Some s -> parseInt s = IVal 0 -> pageNumberOf q = 1)
  /\ (forall s, q_limit q = Some s -> parseInt s = IVal 0 -> pageSizeOf q = 10)
  /\ (forall s n, q_page q = Some s -> parseInt s = IVal n -> n <> 0 ->
      pageNumberOf q = n)
  /\ (forall s n, q_limit q = Some s -> parseInt s = IVal n -> n <> 0 ->
      pageSizeOf q = n)
  /\ pageNumberOf q <> 0 /\ pageSizeOf q <> 0.
Proof.
  unfold pageNumberOf, pageSizeOf, or_default.
  repeat split;
    try (intros s n -> -> Hn; apply Z.eqb_neq in Hn; now rewrite Hn);
    try (intros s -> ->; reflexivity);
    try (intros ->; reflexivity).
  - destruct (q_page q) as [s|]; [destruct (parseInt s) as [|z]|]; try discriminate.
    destruct (z =? 0) eqn:E; [discriminate | now apply Z.eqb_neq].
  - destruct (q_limit q) as [s|]; [destruct (parseInt s) as [|z]|]; try discriminate.
    destruct (z =? 0) eqn:E; [discriminate | now apply Z.eqb_neq].
Qed.

Example negative_page_and_limit_kept :
  pageNumberOf (paged (Some "-3") (Some "-20")) = -3
  /\ pageSizeOf (paged (Some "-3") (Some "-20")) = -20
  /\ pageNumberOf (paged (Some "abc") (Some "")) = 1
  /\ pageSizeOf (paged (Some "abc") (Some "")) = 10.
Proof. repeat split; reflexivity. Qed.

(* ================================================================== *)
(** ** Filter clauses *)

(** C2, as stated, fails: a [categoryId] that is no number is not dropped,
    its clause is in the [where] object with the value [NaN], next to the
    clause of the well-formed [brandId]. *)
Lemma non_numeric_categoryId_kept :
  parseInt "abc" = INaN
  /\ w_categoryId (buildWhere (filtered (Some "abc") (Some "3") None)) = Some INaN
  /\ w_brandsId (buildWhere (filtered (Some "abc") (Some "3") None)) = Some (IVal 3)
  /\ parseFloat "cheap" = FNaN
  /\ w_price (buildWhere (filtered None None (Some "cheap")))
     = Some (mkPriceClause (Some FNaN) None).
Proof. repeat split; reflexivity. Qed.

Lemma int_clause_present (p : option string) :
  int_clause p <> None <-> present p = true.
Proof.
  unfold int_clause. destruct p as [s|]; simpl.
  - destruct (s =? "")%string; simpl; split; congruence.
  - split; congruence.
Qed.

Lemma int_clause_value (p : option string) (s : string) :
  p = Some s -> s <> "" -> int_clause p = Some (parseInt s).
Proof.
  intros -> Hs. unfold int_clause, present.
  apply String.eqb_neq in Hs. now rewrite Hs.
Qed.

Lemma present_some (s : string) : s <> "" -> present (Some s) = true.
Proof. intros Hs. unfold present. apply String.eqb_neq in Hs. now rewrite Hs. Qed.

(** C2, amended.  The clause of a numeric filter is left out exactly when
    its parameter is absent or empty.  A non-empty value always yields a
    clause, with the value [parseInt] or [parseFloat] reads from it, which
    is [NaN] for a value that is no number: the filter is kept, not
    dropped.  Every clause is built from its own parameters alone, so the
    clauses of the other filters are the same whatever that value is. *)
Theorem numeric_filter_clauses (q : Query) :
  (w_categoryId (buildWhere q) <> None <-> present (q_categoryId q) = true)
  /\ (w_subcategoryId (buildWhere q) <> None <-> present (q_subcategoryId q) = true)
  /\ (w_brandsId (buildWhere q) <> None <-> present (q_brandId q) = true)
  /\ (w_price (buildWhere q) <> None
      <-> present (q_minPrice q) || present (q_maxPrice q) = true)
  /\ (forall s, q_categoryId q = Some s -> s <> "" ->
      w_categoryId (buildWhere q) = Some (parseInt s))
  /\ (forall s, q_subcategoryId q = Some s -> s <> "" ->
      w_subcategoryId (buildWhere q) = Some (parseInt s))
  /\ (forall s, q_brandId q = Some s -> s <> "" ->
      w_brandsId (buildWhere q) = Some (parseInt s))
  /\ (forall s, q_minPrice q = Some s -> s <> "" ->
      exists pc, w_price (buildWhere q) = Some pc /\ gte pc = Some (parseFloat s))
  /\ (forall s, q_maxPrice q = Some s -> s <> "" ->
      exists pc, w_price (buildWhere q) = Some pc /\ lte pc = Some (parseFloat s))
  /\ (forall q', q_categoryId q' = q_categoryId q ->
      w_categoryId (buildWhere q') = w_categoryId (buildWhere q))
  /\ (forall q', q_subcategoryId q' = q_subcategoryId q ->
      w_subcategoryId (buildWhere q') = w_subcategoryId (buildWhere q))
  /\ (forall q', q_brandId q' = q_brandId q ->
      w_brandsId (buildWhere q') = w_brandsId (buildWhere q))
  /\ (forall q', q_minPrice q' = q_minPrice q -> q_maxPrice q' = q_maxPrice q ->
      w_price (buildWhere q') = w_price (buildWhere q))
  /\ (forall q', q_color q' = q_color q -> w_Colors (buildWhere q') = w_Colors (buildWhere q))
  /\ (forall q', q_size q' = q_size q -> w_Size (buildWhere q') = w_Size (buildWhere q))
  /\ (forall q', q_discount q' = q_discount q ->
      w_discount (buildWhere q') = w_discount (buildWhere q)).
Proof.
  cbn [buildWhere w_categoryId w_subcategoryId w_brandsId w_price w_Colors w_Size
       w_discount].
  repeat match goal with |- _ /\ _ => split end;
    try apply int_clause_present;
    try (intros s Hq Hs; now apply int_clause_value);
    try (intros q' Hq; now rewrite Hq).
  - unfold price_clause.
    destruct (present (q_minPrice q)), (present (q_maxPrice q)); simpl;
      split; congruence.
  - intros s Hq Hs. unfold price_clause. rewrite Hq, (present_some s Hs). simpl.
    destruct (present (q_maxPrice q)); eexists; split; reflexivity.
  - intros s Hq Hs. unfold price_clause. rewrite Hq, (present_some s Hs). simpl.
    destruct (present (q_minPrice q)); eexists; split; reflexivity.
  - intros q' H1 H2. now rewrite H1, H2.
Qed.

(* ================================================================== *)
(** ** The page fetch *)

Section SortFacts.
Context {A : Type} (leb : A -> A -> bool).

Lemma insert_by_perm (x : A) (l : list A) : Permutation (x :: l) (insert_by leb x l).
Proof.
  induction l as [|y t IH]; simpl.
  - apply Permutation_refl.
  - destruct (leb x y).
    + apply Permutation_refl.
    + eapply perm_trans; [apply perm_swap|]. now apply perm_skip.
Qed.

Lemma sort_by_perm (l : list A) : Permutation l (sort_by leb l).
Proof.
  induction l as [|x t IH]; simpl.
  - apply perm_nil.
  - eapply perm_trans; [apply perm_skip, IH | apply insert_by_perm].
Qed.

Lemma sort_by_length (l : list A) : List.length (sort_by leb l) = List.length l.
Proof. symmetry. apply Permutation_length, sort_by_perm. Qed.

Hypothesis leb_total : forall a b, leb a b = false -> leb b a = true.

Let le (a b : A) : Prop := leb a b = true.

Lemma insert_by_hd (x y : A) (l : list A) :
  le y x -> HdRel le y l -> HdRel le y (insert_by leb x l).
Proof.
  intros Hyx Hl. destruct l as [|z t]; simpl.
  - now constructor.
  - inversion Hl; subst. destruct (leb x z); now constructor.
Qed.

Lemma insert_by_sorted (x : A) (l : list A) :
  Sorted le l -> Sorted le (insert_by leb x l).
Proof.
  induction 1 as [|y t Hs IH Hhd]; simpl.
  - repeat constructor.
  - destruct (leb x y) eqn:E.
    + constructor; [now constructor | now constructor].
    + constructor; [exact IH | apply insert_by_hd; [now apply leb_total | exact Hhd]].
Qed.

Lemma sort_by_sorted (l : list A) : Sorted le (sort_by leb l).
Proof.
  induction l as [|x t IH]; simpl.
  - constructor.
  - now apply insert_by_sorted.
Qed.
End SortFacts.

Lemma price_leb_total (a b : Product) : price_leb a b = false -> price_leb b a = true.
Proof.
  unfold price_leb. intros H. apply Qle_bool_iff.
  destruct (Qlt_le_dec (p_price a) (p_price b)) as [Hlt|Hle]; [|exact Hle].
  apply Qlt_le_weak, Qle_bool_iff in Hlt. congruence.
Qed.

(** The listing succeeds whenever the client accepts the specification,
    and then answers with the window of the ordered matches and the
    metadata of their number: the page fetch and the count read the same
    [where] object, and the store is left as it was. *)
Lemma getProducts_ok (q : Query) (db : DB) (leb : Product -> Product -> bool) :
  where_ok (buildWhere q) = true ->
  order_leb (orderByOf q) = Some leb ->
  0 <= (pageNumberOf q - 1) * pageSizeOf q ->
  getProducts q db =
    (json 200
       (BListing
          (window ((pageNumberOf q - 1) * pageSizeOf q) (pageSizeOf q)
             (sort_by leb (filter (matches (buildWhere q)) (products db))))
          (pageMeta (Z.of_nat (List.length (filter (matches (buildWhere q)) (products db))))
             (pageSizeOf q) (pageNumberOf q))),
     db).
Proof.
  intros Hw Ho Hs.
  unfold getProducts, try_catch, bind, findMany, count, get_db, bind, ret.
  rewrite Hw, Ho. simpl.
  destruct ((pageNumberOf q - 1) * pageSizeOf q <? 0) eqn:E;
    [apply Z.ltb_lt in E; lia | reflexivity].
Qed.

Lemma sample_where :
  buildWhere sample_query =
  mkWhere (Some (IVal 2)) None None None None
          (Some (mkPriceClause (Some (FVal (10 # 1))) (Some (FVal (50 # 1))))) None.
Proof. reflexivity. Qed.

Lemma sample_matches (p : Product) :
  matches (buildWhere sample_query) p = sample_filter p.
Proof.
  rewrite sample_where. unfold matches, sample_filter. simpl.
  now rewrite !andb_true_r, andb_assoc.
Qed.

Lemma firstn_skipn_nth {A} (n k i : nat) (l : list A) :
  (i < n)%nat -> nth_error (firstn n (skipn k l)) i = nth_error l (k + i).
Proof.
  intros Hi. rewrite nth_error_firstn.
  destruct (Nat.ltb_spec i n); [|lia].
  now rewrite nth_error_skipn.
Qed.

(** C4.  With exactly 12 products in category 2 priced within [10, 50],
    the sample request answers 200 with 5 products, the 6th to the 10th of
    the matches in ascending price order, and the metadata
    [{totalProducts: 12, totalPages: 3, currentPage: 2, pageSize: 5}]; the
    page and the count are taken over the same matches, and the store is
    unchanged. *)
Theorem sample_scenario_page_two (db : DB) :
  List.length (filter sample_filter (products db)) = 12%nat ->
  let ordered := sort_by price_leb (filter sample_filter (products db)) in
  exists data,
    getProducts sample_query db =
      (json 200 (BListing data (mkPageMeta 12 3 2 5)), db)
    /\ List.length data = 5%nat
    /\ data = firstn 5 (skipn 5 ordered)
    /\ (forall i, (i < 5)%nat -> nth_error data i = nth_error ordered (5 + i))
    /\ Permutation (filter sample_filter (products db)) ordered
    /\ Sorted (fun a b => Qle (p_price a) (p_price b)) ordered.
Proof.
  intros Hlen ordered.
  exists (firstn 5 (skipn 5 ordered)).
  assert (Hf : filter (matches (buildWhere sample_query)) (products db)
               = filter sample_filter (products db))
    by (apply filter_ext, sample_matches).
  repeat split.
  - rewrite (getProducts_ok sample_query db price_leb); try reflexivity.
    + rewrite Hf, Hlen. reflexivity.
    + discriminate.
  - rewrite length_firstn, length_skipn. unfold ordered.
    rewrite sort_by_length, Hlen. reflexivity.
  - intros i Hi. now apply firstn_skipn_nth.
  - apply sort_by_perm.
  - pose proof (sort_by_sorted price_leb price_leb_total (filter sample_filter (products db)))
      as Hs.
    fold ordered in Hs. clear -Hs.
    induction Hs as [|a l Hs IH Hhd]; constructor; auto.
    destruct Hhd; constructor. now apply Qle_bool_iff.
Qed.

(* ================================================================== *)
(** ** Cart aggregation *)

Section CartFacts.

Variable jwt_verify : string -> option Z.

Lemma with_cart_same (db : DB) : with_cart db (cart db) (cart_seq db) = db.
Proof. now destruct db. Qed.

Lemma verify_header_bearer (req : Request) (db : DB) :
  present (req_authorization req) = true ->
  verify_header jwt_verify (raw (req_authorization req)) db
  = (match bearer jwt_verify req with Some uid => Value uid | None => Raise JsonWebTokenError end, db).
Proof.
  intros Hp. unfold verify_header, bearer, raise, ret. rewrite Hp.
  destruct (nth_error _ 1) as [token|]; [destruct (jwt_verify token)|]; reflexivity.
Qed.

Lemma bearer_present (req : Request) (uid : Z) :
  bearer jwt_verify req = Some uid -> present (req_authorization req) = true.
Proof. unfold bearer. destruct (present _); congruence. Qed.


(** [addToCart] as a decision tree over the look-ups it performs. *)
Lemma addToCart_tree (req : Request) (db : DB) :
  addToCart jwt_verify req db =
  let failed := (json 500 (BError "Failed to add product to cart"), db) in
  let count := with_default (req_count req) (JNum 1) in
  if negb (truthy (req_productId req))
  then (json 400 (BError "Product ID is required"), db)
  else if negb (present (req_authorization req))
  then (json 401 (BError "Unauthorized: No token provided"), db)
  else match bearer jwt_verify req with
  | None => failed
  | Some uid =>
  match user_by_id uid db with
  | None => (json 401 (BError "Unauthorized: Invalid user"), db)
  | Some user =>
  match req_productId req with
  | JNum pid =>
    match product_by_id pid db with
    | None => (json 404 (BError "Product not found"), db)
    | Some product =>
      let done := json 200 (BAdded "Product added to cart" product) in
      match find (cart_key (u_id user) (p_id product)) (cart db) with
      | Some cartItem =>
          match js_add_num (c_count cartItem) count with
          | Some (JNum n) =>
              match find (fun l => c_id l =? c_id cartItem) (cart db) with
              | Some _ =>
                  (done, with_cart db (update_row (c_id cartItem) n (cart db)) (cart_seq db))
              | None => failed
              end
          | _ => failed
          end
      | None =>
          match count with
          | JNum c =>
              (done, with_cart db
                       (cart db ++ [mkCartLine (cart_seq db) (u_id user) (p_id product) c])
                       (cart_seq db + 1))
          | _ => failed
          end
      end
    end
  | _ => failed
  end end end.
Proof.
  unfold addToCart, try_catch. cbv zeta.
  destruct (negb (truthy (req_productId req))); [reflexivity|].
  destruct (negb (present (req_authorization req))) eqn:Hp; [reflexivity|].
  apply negb_false_iff in Hp.
  unfold bind at 1. rewrite (verify_header_bearer req db Hp).
  destruct (bearer jwt_verify req) as [uid|]; [|reflexivity].
  unfold bind at 1. unfold user_findUnique, int_arg, bind, ret, get_db, user_by_id.
  destruct (find _ (users db)) as [user|]; [|reflexivity].
  destruct (req_productId req) as [| |b|pid|s]; try reflexivity.
  unfold product_findUnique, int_arg, bind, ret, get_db, product_by_id.
  destruct (find _ (products db)) as [product|]; [|reflexivity].
  unfold cart_findFirst, int_arg, bind, ret, get_db.
  destruct (find _ (cart db)) as [cartItem|].
  - unfold cart_update, int_arg_opt, int_arg, bind, ret, raise, get_db, put_db.
    destruct (js_add_num _ _) as [[| |b|n|s]|]; try reflexivity.
    destruct (find _ (cart db)); reflexivity.
  - unfold cart_create, int_arg, bind, ret, raise, get_db, put_db.
    destruct (with_default _ _); reflexivity.
Qed.

(** [deleteCart] as a decision tree: the look-up of the line is given the
    route parameter, a string, for the [productId] column and is refused
    by the client, so no request gets past it. *)
Lemma deleteCart_tree (req : Request) (db : DB) :
  deleteCart jwt_verify req db =
  (if negb (present (req_itemId req))
   then json 400 (BError "Item ID is required")
   else if negb (present (req_authorization req))
   then json 401 (BError "Unauthorized: No token provided")
   else match bearer jwt_verify req with
   | None => json 500 (BError "Failed to remove item from cart")
   | Some uid =>
   match user_by_id uid db with
   | None => json 401 (BError "Unauthorized: Invalid user")
   | Some user => json 500 (BError "Failed to remove item from cart")
   end end, db).
Proof.
  unfold deleteCart, try_catch. cbv zeta.
  destruct (negb (present (req_itemId req))); [reflexivity|].
  destruct (negb (present (req_authorization req))) eqn:Hp; [reflexivity|].
  apply negb_false_iff in Hp.
  unfold bind at 1. rewrite (verify_header_bearer req db Hp).
  destruct (bearer jwt_verify req) as [uid|]; [|reflexivity].
  unfold bind at 1. unfold user_findUnique, int_arg, bind, ret, get_db, user_by_id.
  destruct (find _ (users db)) as [user|]; reflexivity.
Qed.

(** *** The cart table under update and create *)

Lemma update_row_recount (id n : Z) (rows : list CartLine) :
  NoDup (map c_id rows) -> update_row id n rows = map (recount id n) rows.
Proof.
  induction rows as [|x t IH]; simpl; [reflexivity|].
  intros Hnd. inversion Hnd as [|? ? Hx Ht]; subst.
  unfold recount at 1. destruct (c_id x =? id) eqn:E.
  - f_equal. apply Z.eqb_eq in E. subst id.
    clear IH Hnd Ht. induction t as [|y t IH]; simpl; [reflexivity|].
    simpl in Hx. unfold recount at 1.
    destruct (c_id y =? c_id x) eqn:E; [apply Z.eqb_eq in E; tauto|].
    f_equal. apply IH. tauto.
  - f_equal. now apply IH.
Qed.


Lemma recount_key (id n u p : Z) (l : CartLine) :
  cart_key u p (recount id n l) = cart_key u p l.
Proof. unfold recount. now destruct (c_id l =? id). Qed.

Lemma recount_other (id n : Z) (l : CartLine) : c_id l <> id -> recount id n l = l.
Proof. unfold recount. intros H. apply Z.eqb_neq in H. now rewrite H. Qed.

Lemma recount_self (n : Z) (l : CartLine) : recount (c_id l) n l = set_count n l.
Proof. unfold recount. now rewrite Z.eqb_refl. Qed.

Lemma filter_recount (id n u p : Z) (rows : list CartLine) :
  filter (cart_key u p) (map (recount id n) rows)
  = map (recount id n) (filter (cart_key u p) rows).
Proof.
  induction rows as [|x t IH]; simpl; [reflexivity|].
  rewrite recount_key. destruct (cart_key u p x); simpl; now rewrite IH.
Qed.





Lemma cart_key_eq (u p : Z) (l : CartLine) :
  cart_key u p l = true <-> c_userId l = u /\ c_productId l = p.
Proof. unfold cart_key. rewrite andb_true_iff, !Z.eqb_eq. tauto. Qed.




(** The row operation behind [cart.delete]: on a keyed table it removes
    the row with the identifier and no other. *)
Lemma delete_row_removes (id : Z) (rows : list CartLine) :
  NoDup (map c_id rows) ->
  delete_row id rows = filter (fun l => negb (c_id l =? id)) rows.
Proof.
  induction rows as [|x t IH]; simpl; [reflexivity|].
  intros Hnd. inversion Hnd as [|? ? Hx Ht]; subst.
  destruct (c_id x =? id) eqn:E; simpl.
  - apply Z.eqb_eq in E. subst id. symmetry. apply forallb_filter_id.
    apply forallb_forall. intros l Hl. apply negb_true_iff, Z.eqb_neq.
    intros Heq. apply Hx. rewrite <- Heq. now apply in_map.
  - f_equal. now apply IH.
Qed.



(** *** A request that is served *)

Lemma user_by_id_id (uid : Z) (db : DB) (user : User) :
  user_by_id uid db = Some user -> u_id user = uid /\ In user (users db).
Proof.
  intros H. apply find_some in H as [Hin He]. apply Z.eqb_eq in He. tauto.
Qed.

Lemma product_by_id_id (pid : Z) (db : DB) (product : Product) :
  product_by_id pid db = Some product -> p_id product = pid /\ In product (products db).
Proof.
  intros H. apply find_some in H as [Hin He]. apply Z.eqb_eq in He. tauto.
Qed.




(** *** Requests that are turned away *)


(** C8, amended.  A request without an [authorization] header never
    changes the store.  It is answered 401 when it names a product; a
    request that names none is answered 400, the check of [productId]
    being the first of the handler. *)
Theorem addToCart_without_credential (req : Request) (db : DB) :
  present (req_authorization req) = false ->
  snd (addToCart jwt_verify req db) = db
  /\ status (fst (addToCart jwt_verify req db))
     = (if truthy (req_productId req) then 401 else 400)
  /\ List.length (cart (snd (addToCart jwt_verify req db))) = List.length (cart db).
Proof.
  intros Hp. rewrite addToCart_tree. cbv zeta. rewrite Hp.
  destruct (truthy (req_productId req)); simpl; auto.
Qed.

(** C9, amended.  A request whose token verifies but whose [userid] is the
    id of no stored user never changes the store.  It is answered 401
    when it names a product, and 400 when it names none. *)
Theorem addToCart_unknown_user (req : Request) (db : DB) (uid : Z) :
  bearer jwt_verify req = Some uid ->
  user_by_id uid db = None ->
  snd (addToCart jwt_verify req db) = db
  /\ status (fst (addToCart jwt_verify req db))
     = (if truthy (req_productId req) then 401 else 400).
Proof.
  intros Hb Hu. rewrite addToCart_tree. cbv zeta.
  rewrite (bearer_present _ _ Hb), Hb, Hu.
  destruct (truthy (req_productId req)); simpl; auto.
Qed.

(** *** The frame of an update *)

(** C10.  When a call answers 200 and the pair of the request has a line,
    the cart afterwards is the cart before with the count of that one
    line replaced: the line keeps its identifier, user and product, every
    other line is the same at the same place, and the users, the products
    and the sequence are untouched; the product in the response is the
    product of the catalog. *)
Theorem addToCart_update_frame (req : Request) (db : DB) (uid pid : Z) (ci : CartLine) :
  cart_keyed db ->
  bearer jwt_verify req = Some uid ->
  req_productId req = JNum pid ->
  find (cart_key uid pid) (cart db) = Some ci ->
  status (fst (addToCart jwt_verify req db)) = 200 ->
  let r := addToCart jwt_verify req db in
  exists n product,
    js_add_num (c_count ci) (with_default (req_count req) (JNum 1)) = Some (JNum n)
    /\ (forall c, requested_count req = Some c -> n = c_count ci + c)
    /\ cart (snd r) = map (recount (c_id ci) n) (cart db)
    /\ In (mkCartLine (c_id ci) (c_userId ci) (c_productId ci) n) (cart (snd r))
    /\ (forall i l, nth_error (cart db) i = Some l -> c_id l <> c_id ci ->
        nth_error (cart (snd r)) i = Some l)
    /\ List.length (cart (snd r)) = List.length (cart db)
    /\ users (snd r) = users db
    /\ products (snd r) = products db
    /\ cart_seq (snd r) = cart_seq db
    /\ body (fst r) = BAdded "Product added to cart" product
    /\ product_by_id pid db = Some product
    /\ product_by_id pid (snd r) = Some product.
Proof.
  intros [Hnd _] Hb Hp Hf. cbv zeta. rewrite addToCart_tree. cbv zeta.
  rewrite Hp, (bearer_present _ _ Hb), Hb.
  destruct (negb (truthy (JNum pid))); [discriminate|]. cbn [negb].
  destruct (user_by_id uid db) as [user|] eqn:Eu; [|discriminate].
  destruct (product_by_id pid db) as [product|] eqn:Ep; [|discriminate].
  destruct (user_by_id_id _ _ _ Eu) as [-> _].
  destruct (product_by_id_id _ _ _ Ep) as [Hpid _]. rewrite Hpid, Hf.
  destruct (js_add_num _ _) as [[| |b|n|s]|] eqn:Ej; try discriminate.
  destruct (find (fun l => c_id l =? c_id ci) (cart db)) as [found|]; [|discriminate].
  intros _. exists n, product. simpl.
  rewrite (update_row_recount _ _ _ Hnd).
  repeat match goal with |- _ /\ _ => split end; try reflexivity.
  - intros c Hc. unfold requested_count in Hc.
    destruct (with_default (req_count req) (JNum 1)); try discriminate.
    injection Hc as ->. simpl in Ej. congruence.
  - apply find_some in Hf as [Hin _].
    apply in_map_iff. exists ci. split; [apply recount_self | exact Hin].
  - intros i l Hl Hne. rewrite nth_error_map, Hl. simpl. now rewrite recount_other.
  - apply length_map.
  - unfold product_by_id in *. simpl. exact Ep.
Qed.

(** *** Removal *)

(** C3.  What [deleteCart] does with a request that is authenticated and
    names an item: the look-up of the line passes the route parameter, a
    string, as [productId], the client refuses it, and the handler
    answers 500 with the cart as it was.  No line is deleted and neither
    200 nor 404 is ever the answer. *)
Theorem deleteCart_string_itemId (req : Request) (db : DB) (uid : Z) :
  bearer jwt_verify req = Some uid ->
  user_by_id uid db <> None ->
  present (req_itemId req) = true ->
  deleteCart jwt_verify req db
  = (json 500 (BError "Failed to remove item from cart"), db).
Proof.
  intros Hb Hu Hi. rewrite deleteCart_tree.
  rewrite Hi, (bearer_present _ _ Hb), Hb. simpl.
  destruct (user_by_id uid db); [reflexivity | congruence].
Qed.

End CartFacts.

(* ================================================================== *)
(** ** The theorems on the sample data *)


Lemma sample_scenario_page_two_witness :
  exists data,
    getProducts sample_query sample_db
    = (json 200 (BListing data (mkPageMeta 12 3 2 5)), sample_db)
    /\ map p_id data = [7; 3; 11; 14; 8].
Proof.
  destruct (sample_scenario_page_two sample_db eq_refl) as (data & Hg & _ & Hd & _).
  exists data. split; [exact Hg | rewrite Hd; reflexivity].
Defined.


(** The scenario of the specification: the same product twice without a
    count gives one line with quantity 2. *)
Example add_twice_without_count :
  cart (snd (addToCart sample_verify (add_req (Some "Bearer tok-ann") (JNum 7) JUndefined)
         (snd (addToCart sample_verify (add_req (Some "Bearer tok-ann") (JNum 7) JUndefined)
            sample_db))))
  = [mkCartLine 1 1 7 2].
Proof. reflexivity. Qed.


(** C8, as stated, fails: without a credential and without a [productId]
    the answer is 400, not 401. *)
Lemma no_credential_no_productId_is_400 :
  status (fst (addToCart sample_verify (add_req None JUndefined JUndefined) sample_db)) = 400
  /\ status (fst (addToCart sample_verify (add_req None JUndefined JUndefined) sample_db))
     <> 401.
Proof. split; [reflexivity | discriminate]. Qed.

Lemma addToCart_without_credential_witness :
  snd (addToCart sample_verify (add_req None (JNum 7) (JNum 2)) sample_db_with_line)
  = sample_db_with_line
  /\ status (fst (addToCart sample_verify (add_req None (JNum 7) (JNum 2))
                    sample_db_with_line)) = 401
  /\ List.length (cart (snd (addToCart sample_verify (add_req None (JNum 7) (JNum 2))
                               sample_db_with_line))) = 2%nat.
Proof.
  exact (addToCart_without_credential sample_verify
           (add_req None (JNum 7) (JNum 2)) sample_db_with_line eq_refl).
Defined.

(** C9, as stated, fails: with a verified token of a user that is not
    stored and without a [productId] the answer is 400, not 401. *)
Lemma unknown_user_no_productId_is_400 :
  bearer sample_verify (add_req (Some "Bearer tok-gone") JUndefined JUndefined) = Some 9
  /\ user_by_id 9 sample_db = None
  /\ status (fst (addToCart sample_verify
                    (add_req (Some "Bearer tok-gone") JUndefined JUndefined) sample_db))
     = 400
  /\ status (fst (addToCart sample_verify
                    (add_req (Some "Bearer tok-gone") JUndefined JUndefined) sample_db))
     <> 401.
Proof. repeat split; try reflexivity; discriminate. Qed.

Lemma addToCart_unknown_user_witness :
  snd (addToCart sample_verify (add_req (Some "Bearer tok-gone") (JNum 7) (JNum 2))
         sample_db_with_line)
  = sample_db_with_line
  /\ status (fst (addToCart sample_verify (add_req (Some "Bearer tok-gone") (JNum 7) (JNum 2))
                    sample_db_with_line)) = 401.
Proof.
  exact (addToCart_unknown_user sample_verify
           (add_req (Some "Bearer tok-gone") (JNum 7) (JNum 2)) sample_db_with_line 9
           eq_refl eq_refl).
Defined.

Lemma addToCart_update_frame_witness :
  cart (snd (addToCart sample_verify (add_req (Some "Bearer tok-ann") (JNum 7) (JNum 3))
               sample_db_with_line))
  = [mkCartLine 1 1 7 5; mkCartLine 2 4 7 1]
  /\ products (snd (addToCart sample_verify
                      (add_req (Some "Bearer tok-ann") (JNum 7) (JNum 3))
                      sample_db_with_line))
     = sample_products.
Proof.
  destruct (addToCart_update_frame sample_verify
              (add_req (Some "Bearer tok-ann") (JNum 7) (JNum 3)) sample_db_with_line
              1 7 (mkCartLine 1 1 7 2))
    as (n & product & _ & Hn & Hc & _ & _ & _ & _ & Hp & _);
    try reflexivity.
  - split; [simpl; repeat constructor; simpl; intuition discriminate
           | repeat constructor; simpl; lia].
  - rewrite Hc, Hp, (Hn 3 eq_refl). split; reflexivity.
Defined.

(** The failing input of C3: user 1 has a line for product 7 and asks to
    remove item 7; the answer is 500 and the line is still there. *)
Lemma deleteCart_string_itemId_witness :
  deleteCart sample_verify (delete_req (Some "Bearer tok-ann") "7") sample_db_with_line
  = (json 500 (BError "Failed to remove item from cart"), sample_db_with_line).
Proof.
  apply (deleteCart_string_itemId sample_verify _ _ 1); try reflexivity; discriminate.
Defined.

(* ================================================================== *)
(** ** More on the listing *)






Lemma window_forward {A} (skip take : Z) (l : list A) :
  0 <= take -> window skip take l = firstn (Z.to_nat take) (skipn (Z.to_nat skip) l).
Proof. intros H. unfold window. destruct (take <? 0) eqn:E; [lia | reflexivity]. Qed.




(** *** The order of a page *)

Lemma string_leb_total (a b : string) : string_leb a b = false -> string_leb b a = true.
Proof.
  revert b. induction a as [|x a IH]; intros [|y b]; simpl; try discriminate; auto.
  destruct (code x <? code y) eqn:E1; [discriminate|].
  destruct (code y <? code x) eqn:E2; [reflexivity|]. apply IH.
Qed.

Lemma Qle_bool_total (x y : Q) : Qle_bool x y = false -> Qle_bool y x = true.
Proof.
  intros H. apply Qle_bool_iff.
  destruct (Qlt_le_dec x y) as [Hlt|Hle]; [|exact Hle].
  apply Qlt_le_weak, Qle_bool_iff in Hlt. congruence.
Qed.

Lemma column_leb_total (field : string) (leb : Product -> Product -> bool) :
  column_leb field = Some leb -> forall a b, leb a b = false -> leb b a = true.
Proof.
  unfold column_leb.
  repeat match goal with
         | |- context [if ?c then _ else _] => destruct c
         end; intros [= <-] a b;
    first [ apply Qle_bool_total
          | apply string_leb_total
          | intros H; apply Z.leb_le; apply Z.leb_gt in H; lia
          | destruct (p_subcategoryId a), (p_subcategoryId b); simpl;
            try discriminate; auto;
            intros H; apply Z.leb_le; apply Z.leb_gt in H; lia ].
Qed.

Lemma Sorted_skipn {A} (R : A -> A -> Prop) (n : nat) (l : list A) :
  Sorted R l -> Sorted R (skipn n l).
Proof.
  revert l. induction n as [|n IH]; intros l Hs; [exact Hs|].
  destruct l as [|x t]; [constructor|]. simpl. apply IH. now inversion Hs.
Qed.

Lemma Sorted_firstn {A} (R : A -> A -> Prop) (n : nat) (l : list A) :
  Sorted R l -> Sorted R (firstn n l).
Proof.
  revert l. induction n as [|n IH]; intros l Hs; [constructor|].
  destruct l as [|x t]; [constructor|]. simpl. inversion Hs as [|? ? Ht Hhd]; subst.
  constructor; [now apply IH|].
  destruct t as [|y t'], n; simpl; constructor. now inversion Hhd.
Qed.

(** X4.  With a page number and a page size of at least 1 the products of
    a page come in the order of the requested column: ascending when
    [sortOrder] is absent or ['asc'], descending for every other value. *)
Theorem getProducts_ordered (q : Query) (db : DB) (leb : Product -> Product -> bool) :
  where_ok (buildWhere q) = true ->
  column_leb (fst (orderByOf q)) = Some leb ->
  1 <= pageNumberOf q -> 1 <= pageSizeOf q ->
  let data := listing_data (fst (getProducts q db)) in
  (q_sortOrder q = None \/ q_sortOrder q = Some "asc" ->
   Sorted (fun a b => leb a b = true) data)
  /\ ((exists o, q_sortOrder q = Some o /\ o <> "asc") ->
      Sorted (fun a b => leb b a = true) data).
Proof.
  intros Hw Hc Hp Hs data.
  assert (Hk : 0 <= (pageNumberOf q - 1) * pageSizeOf q) by nia.
  assert (Hdata : forall leb', order_leb (orderByOf q) = Some leb' ->
            (forall a b, leb' a b = false -> leb' b a = true) ->
            Sorted (fun a b => leb' a b = true) data).
  { intros leb' Ho Htot. unfold data.
    rewrite (getProducts_ok q db leb' Hw Ho Hk). cbn [listing_data json body fst].
    rewrite window_forward by lia.
    apply Sorted_firstn, Sorted_skipn, sort_by_sorted, Htot. }
  pose proof (column_leb_total _ _ Hc) as Htot.
  split.
  - intros Hasc. apply Hdata; [|exact Htot].
    unfold order_leb. rewrite Hc. unfold orderByOf. simpl.
    destruct Hasc as [-> | ->]; reflexivity.
  - intros (o & Ho & Hne). apply (Hdata (fun a b => leb b a)); [|intros a b; apply Htot].
    unfold order_leb. rewrite Hc. unfold orderByOf. simpl. rewrite Ho.
    apply String.eqb_neq in Hne. now rewrite Hne.
Qed.

(** *** What the filters ask of a product *)









(** *** Letter case in the colour and size filters *)

Lemma upper_char_ws (c : ascii) : is_ws (upper_char c) = is_ws c.
Proof. destruct c as [[] [] [] [] [] [] [] []]; reflexivity. Qed.

Lemma upper_char_comma (c : ascii) : (upper_char c =? ",")%char = (c =? ",")%char.
Proof. destruct c as [[] [] [] [] [] [] [] []]; reflexivity. Qed.

Lemma upper_char_idem (c : ascii) : upper_char (upper_char c) = upper_char c.
Proof. destruct c as [[] [] [] [] [] [] [] []]; reflexivity. Qed.

Lemma toUpperCase_idem (s : string) : toUpperCase (toUpperCase s) = toUpperCase s.
Proof. induction s as [|c s IH]; simpl; [reflexivity|]. now rewrite upper_char_idem, IH. Qed.

Lemma toUpperCase_skip_ws (s : string) : skip_ws (toUpperCase s) = toUpperCase (skip_ws s).
Proof.
  induction s as [|c s IH]; simpl; [reflexivity|].
  rewrite upper_char_ws. now destruct (is_ws c).
Qed.

Lemma toUpperCase_rev_onto (s acc : string) :
  string_rev_onto (toUpperCase s) (toUpperCase acc) = toUpperCase (string_rev_onto s acc).
Proof.
  revert acc. induction s as [|c s IH]; intros acc; simpl; [reflexivity|].
  now rewrite <- IH.
Qed.

Lemma toUpperCase_trim (s : string) : trim (toUpperCase s) = toUpperCase (trim s).
Proof.
  unfold trim, string_rev.
  rewrite toUpperCase_skip_ws.
  rewrite (toUpperCase_rev_onto _ EmptyString), toUpperCase_skip_ws.
  now rewrite (toUpperCase_rev_onto _ EmptyString).
Qed.

Lemma toUpperCase_split (s : string) :
  split_on "," (toUpperCase s) = map toUpperCase (split_on "," s).
Proof.
  induction s as [|c s IH]; simpl; [reflexivity|].
  rewrite upper_char_comma. destruct (c =? ",")%char; simpl.
  - now rewrite IH.
  - rewrite IH. now destruct (split_on "," s).
Qed.

Lemma toUpperCase_empty (s : string) : (toUpperCase s =? "")%string = (s =? "")%string.
Proof. now destruct s. Qed.

Lemma list_clause_upper (s : string) :
  list_clause (Some (toUpperCase s)) = list_clause (Some s).
Proof.
  unfold list_clause, present. rewrite toUpperCase_empty.
  destruct (s =? "")%string; simpl; [reflexivity|]. f_equal.
  rewrite toUpperCase_split, map_map. apply map_ext. intros c.
  now rewrite toUpperCase_trim, toUpperCase_idem.
Qed.

(** X6.  The colour and size filters do not see letter case: two requests
    whose [color] (or [size]) values differ only in the case of their
    letters build the same clause. *)
Theorem list_filters_ignore_case (q q' : Query) (s s' : string) :
  toUpperCase s = toUpperCase s' ->
  (q_color q = Some s -> q_color q' = Some s' ->
   w_Colors (buildWhere q) = w_Colors (buildWhere q'))
  /\ (q_size q = Some s -> q_size q' = Some s' ->
      w_Size (buildWhere q) = w_Size (buildWhere q')).
Proof.
  intros Hu. unfold buildWhere. cbn [w_Colors w_Size].
  split; intros -> ->;
    now rewrite <- (list_clause_upper s), <- (list_clause_upper s'), Hu.
Qed.

(* ================================================================== *)
(** ** More on the cart handlers *)

Section CartMore.

Variable jwt_verify : string -> option Z.

(** X7.  A request whose [authorization] header is present but whose
    token does not verify (or has no second part) is answered 500 by both
    cart handlers, not 401: [jwt.verify] throws inside the [try].  The
    store is not written. *)
Theorem unverified_token_is_500 (req : Request) (db : DB) :
  present (req_authorization req) = true ->
  bearer jwt_verify req = None ->
  (truthy (req_productId req) = true ->
   addToCart jwt_verify req db
   = (json 500 (BError "Failed to add product to cart"), db))
  /\ (present (req_itemId req) = true ->
      deleteCart jwt_verify req db
      = (json 500 (BError "Failed to remove item from cart"), db)).
Proof.
  intros Hp Hb. split; intros Ht.
  - rewrite addToCart_tree. cbv zeta. now rewrite Ht, Hp, Hb.
  - rewrite deleteCart_tree. now rewrite Ht, Hp, Hb.
Qed.

(** X8.  [addToCart] writes the store only when it answers 200: every
    other answer (400, 401, 404 or 500, there is no further one) leaves
    the store as it was, and no answer changes the users, the products or
    the number of lines by more than one. *)
Theorem addToCart_writes_only_on_200 (req : Request) (db : DB) :
  let r := addToCart jwt_verify req db in
  (status (fst r) <> 200 -> snd r = db)
  /\ In (status (fst r)) [200; 400; 401; 404; 500]
  /\ users (snd r) = users db
  /\ products (snd r) = products db
  /\ (List.length (cart db) <= List.length (cart (snd r)) <= S (List.length (cart db)))%nat.
Proof.
  cbv zeta. rewrite addToCart_tree. cbv zeta.
  assert (Hup : forall id n rows,
            List.length (update_row id n rows) = List.length rows).
  { intros id n rows. induction rows as [|x t IH]; simpl; [reflexivity|].
    destruct (c_id x =? id); simpl; congruence. }
  repeat match goal with
         | |- context [if ?c then _ else _] => destruct c
         | |- context [match ?x with _ => _ end] => destruct x eqn:?
         end; simpl;
    repeat match goal with |- _ /\ _ => split end;
    try tauto; try congruence; try lia;
    try (rewrite Hup; lia); try (rewrite length_app; simpl; lia).
Qed.

Lemma keyed_rows_equal (rows : list CartLine) (a b : CartLine) :
  NoDup (map c_id rows) -> In a rows -> In b rows -> c_id a = c_id b -> a = b.
Proof.
  induction rows as [|x t IH]; simpl; [tauto|].
  intros Hnd Ha Hb Hid. inversion Hnd as [|? ? Hx Ht]; subst.
  destruct Ha as [->|Ha], Hb as [->|Hb]; auto.
  - exfalso. apply Hx. rewrite Hid. now apply in_map.
  - exfalso. apply Hx. rewrite <- Hid. now apply in_map.
Qed.

(** X9.  A call touches the lines of one pair only, the user of the
    credential and the product of the body: the lines of every other
    (user, product) pair are the same after the call, whatever the
    request and its answer. *)
Theorem addToCart_other_pairs_untouched (req : Request) (db : DB) (u p : Z) :
  cart_keyed db ->
  ~ (bearer jwt_verify req = Some u /\ req_productId req = JNum p) ->
  lines_of u p (snd (addToCart jwt_verify req db)) = lines_of u p db.
Proof.
  intros [Hnd _] Hother. rewrite addToCart_tree. cbv zeta.
  destruct (negb (truthy (req_productId req))); [reflexivity|].
  destruct (negb (present (req_authorization req))); [reflexivity|].
  destruct (bearer jwt_verify req) as [uid|] eqn:Hb; [|reflexivity].
  destruct (user_by_id uid db) as [user|] eqn:Eu; [|reflexivity].
  destruct (req_productId req) as [| |b|pid|s] eqn:Hp; try reflexivity.
  destruct (product_by_id pid db) as [product|] eqn:Ep; [|reflexivity].
  destruct (user_by_id_id _ _ _ Eu) as [Huid _].
  destruct (product_by_id_id _ _ _ Ep) as [Hpid _]. rewrite Huid, Hpid.
  assert (Hne : cart_key uid pid = cart_key uid pid -> ~ (u = uid /\ p = pid)).
  { intros _ [-> ->]. apply Hother. split; reflexivity. }
  specialize (Hne eq_refl).
  destruct (find (cart_key uid pid) (cart db)) as [ci|] eqn:Hf.
  - destruct (js_add_num _ _) as [[| |b|n|s]|]; try reflexivity.
    destruct (find (fun l => c_id l =? c_id ci) (cart db)) as [found|]; [|reflexivity].
    unfold lines_of. simpl. rewrite (update_row_recount _ _ _ Hnd), filter_recount.
    rewrite <- (map_id (filter (cart_key u p) (cart db))) at 2.
    apply map_ext_in. intros l Hl. apply filter_In in Hl as [Hin Hk].
    apply recount_other. intros Hid.
    apply find_some in Hf as [Hci Hkci].
    assert (l = ci) by (apply (keyed_rows_equal (cart db)); assumption). subst l.
    apply cart_key_eq in Hk, Hkci. apply Hne. destruct Hk, Hkci. split; congruence.
  - destruct (with_default (req_count req) (JNum 1)); try reflexivity.
    unfold lines_of. simpl. rewrite filter_app. simpl.
    destruct (cart_key u p _) eqn:Ek; [|apply app_nil_r].
    apply cart_key_eq in Ek. simpl in Ek. exfalso. apply Hne. destruct Ek. split; congruence.
Qed.


Lemma update_row_positive (id n : Z) (rows : list CartLine) :
  1 <= n -> Forall (fun l => 1 <= c_count l) rows ->
  Forall (fun l => 1 <= c_count l) (update_row id n rows).
Proof.
  intros Hn. induction 1 as [|x t Hx Ht IH]; simpl; [constructor|].
  destruct (c_id x =? id); constructor; auto.
Qed.

(** X11.  The handler does not look at the sign of [count], but it keeps
    quantities positive when it is given no number below 1: if every line
    has a quantity of at least 1 and the request's [count] is not a number
    below 1, every line has a quantity of at least 1 after the call. *)
Theorem addToCart_keeps_quantities_positive (req : Request) (db : DB) :
  Forall (fun l => 1 <= c_count l) (cart db) ->
  (forall c, req_count req = JNum c -> 1 <= c) ->
  Forall (fun l => 1 <= c_count l) (cart (snd (addToCart jwt_verify req db))).
Proof.
  intros Hpos Hc. rewrite addToCart_tree. cbv zeta.
  destruct (negb (truthy (req_productId req))); [exact Hpos|].
  destruct (negb (present (req_authorization req))); [exact Hpos|].
  destruct (bearer jwt_verify req) as [uid|]; [|exact Hpos].
  destruct (user_by_id uid db) as [user|]; [|exact Hpos].
  destruct (req_productId req) as [| |b|pid|s]; try exact Hpos.
  destruct (product_by_id pid db) as [product|]; [|exact Hpos].
  destruct (find (cart_key _ _) (cart db)) as [ci|] eqn:Hf.
  - destruct (js_add_num _ _) as [[| |b|n|s]|] eqn:Ej; try exact Hpos.
    destruct (find (fun l => c_id l =? c_id ci) (cart db)) as [found|]; [|exact Hpos].
    simpl. apply update_row_positive; [|exact Hpos].
    apply find_some in Hf as [Hin _].
    rewrite Forall_forall in Hpos. specialize (Hpos ci Hin).
    destruct (req_count req) as [| |b|c|s] eqn:Ec; simpl in Ej;
      try (injection Ej as <-); try discriminate; try lia.
    + destruct b; lia.
    + specialize (Hc c eq_refl). lia.
  - destruct (req_count req) as [| |b|c|s] eqn:Ec; simpl; try exact Hpos.
    + apply Forall_app. split; [exact Hpos | repeat constructor; simpl; lia].
    + apply Forall_app. split; [exact Hpos|]. repeat constructor. simpl. now apply Hc.
Qed.

(** X12.  Text where the client expects a number is refused: for an
    authenticated request a [productId] given as a string, even one that
    spells the id of a product, and a [count] given as a string are both
    answered 500 with the store as it was. *)
Theorem addToCart_text_for_number (req : Request) (db : DB) (uid : Z) :
  bearer jwt_verify req = Some uid ->
  user_by_id uid db <> None ->
  (forall s, req_productId req = JStr s -> s <> "" ->
   addToCart jwt_verify req db
   = (json 500 (BError "Failed to add product to cart"), db))
  /\ (forall pid s, req_productId req = JNum pid -> pid <> 0 ->
      product_by_id pid db <> None -> req_count req = JStr s ->
      addToCart jwt_verify req db
      = (json 500 (BError "Failed to add product to cart"), db)).
Proof.
  intros Hb Hu. destruct (user_by_id uid db) as [user|] eqn:Eu; [|congruence].
  split.
  - intros s Hp Hs. rewrite addToCart_tree. cbv zeta.
    rewrite Hp, (bearer_present _ _ _ Hb), Hb, Eu. simpl.
    apply String.eqb_neq in Hs. now rewrite Hs.
  - intros pid s Hp Hpid Hprod Hc. rewrite addToCart_tree. cbv zeta.
    rewrite Hp, (bearer_present _ _ _ Hb), Hb, Eu, Hc. simpl.
    apply Z.eqb_neq in Hpid. rewrite Hpid. simpl.
    destruct (product_by_id pid db) as [product|]; [|congruence].
    destruct (find (cart_key _ _) (cart db)); reflexivity.
Qed.

End CartMore.

(* ================================================================== *)
(** ** Accounts *)

Section LoginFacts.

Variable jwt_sign : Z -> Z -> string.
Variable bcrypt_compare : string -> string -> bool.

Local Notation "'login_'" := (login jwt_sign bcrypt_compare).

Lemma truthy_text (s : string) : s <> "" -> truthy (JStr s) = true.
Proof. intros H. simpl. apply String.eqb_neq in H. now rewrite H. Qed.

(** [login] as a decision tree. *)
Lemma login_tree (env : Env) (cart_rows : list CartLine) (req : AccountRequest)
    (s : Accounts) :
  login_ env cart_rows req s =
  (if negb (truthy (b_username req)) || negb (truthy (b_password req))
   then jsonA 400 (AError "Username and password are required")
   else match b_username req with
   | JStr u =>
     match find (fun a => (a_username a =? u)%string) (accounts s) with
     | None => jsonA 401 (AError "Invalid username or password")
     | Some user =>
       match b_password req with
       | JStr p =>
           if bcrypt_compare p (a_password user)
           then jsonA 200 (ALoggedIn (jwt_sign (now env) (a_id user)) user
                             (filter (fun l => c_userId l =? a_id user) cart_rows))
           else jsonA 401 (AError "Invalid username or password")
       | _ => jsonA 500 (AError "Failed to login")
       end
     end
   | _ => jsonA 500 (AError "Failed to login")
   end, s).
Proof.
  unfold login, try_catchA. cbv zeta.
  destruct (negb (truthy (b_username req)) || negb (truthy (b_password req)));
    [reflexivity|].
  unfold user_findFirst_username, str_arg, bindA, retA, raiseA, get_accounts.
  destruct (b_username req) as [| |b|n|u]; try reflexivity.
  destruct (find _ (accounts s)) as [user|]; [|reflexivity].
  destruct (b_password req) as [| |b|n|p]; try reflexivity.
  destruct (bcrypt_compare p (a_password user)); reflexivity.
Qed.


(** X13.  [login] does not tell an unknown user name from a wrong
    password: both are answered with the same 401 response, and nothing
    is written. *)
Theorem login_same_refusal (env : Env) (cart_rows : list CartLine)
    (req : AccountRequest) (s : Accounts) (u p : string) :
  b_username req = JStr u -> b_password req = JStr p -> u <> "" -> p <> "" ->
  (find (fun a => (a_username a =? u)%string) (accounts s) = None
   \/ exists a, find (fun a => (a_username a =? u)%string) (accounts s) = Some a
                /\ bcrypt_compare p (a_password a) = false) ->
  login_ env cart_rows req s
  = (jsonA 401 (AError "Invalid username or password"), s).
Proof.
  intros Hu Hp Nu Np Hcase. rewrite login_tree, Hu, Hp.
  rewrite !truthy_text by assumption. cbn [negb orb].
  destruct Hcase as [-> | (a & -> & ->)]; reflexivity.
Qed.





End LoginFacts.

Section RegisterFacts.

Variable jwt_sign : Z -> Z -> string.
Variable bcrypt_hash : string -> string -> string.
Variable new_Date : string -> option Z.
Variable schema_accepts : Account -> list Account -> bool.
Variable EMAIL_USER : string.

Local Notation "'register_'" :=
  (register jwt_sign bcrypt_hash new_Date schema_accepts EMAIL_USER).

(** The outcomes of [register], for both states of the mail transport
    at once: a refusal that leaves everything as it was, or one new row,
    built from the request, with its token and its welcome mail. *)
Lemma register_cases_mail (clock : Z) (salt0 : string) (req : AccountRequest)
    (s : Accounts) :
  (exists r, (a_status r = 400 \/ a_status r = 500)
     /\ forall up, register_ (mkEnv clock salt0 up) req s = (r, s))
  \/ (exists a p g,
        (forall up,
           register_ (mkEnv clock salt0 up) req s
           = (jsonA 201 (ARegistered (jwt_sign clock (a_id a))
                           "User registered successfully" a),
              mkAccounts (accounts s ++ [a]) (account_seq s + 1)
                (outbox s ++ if up
                             then [mailOptions EMAIL_USER (a_email a) (a_name a)]
                             else [])))
        /\ a_id a = account_seq s
        /\ b_name req = JStr (a_name a) /\ b_username req = JStr (a_username a)
        /\ b_phone req = JStr (a_phone a) /\ b_email req = JStr (a_email a)
        /\ b_gender req = JStr g /\ a_gender a = toUpperCase g
        /\ b_password req = JStr p /\ a_password a = bcrypt_hash salt0 p
        /\ find (fun x => (a_username x =? a_username a)%string
                          || (a_email x =? a_email a)%string) (accounts s) = None
        /\ schema_accepts a (accounts s) = true
        /\ (truthy (b_user_img req) = false -> a_user_img a = default_user_img)
        /\ (truthy (b_user_img req) = true -> b_user_img req = JStr (a_user_img a))
        /\ (truthy (b_address req) = false -> a_address a = None)
        /\ (truthy (b_dob req) = false -> a_dob a = None)).
Proof.
  unfold register, try_catchA. cbn [now salt mail_up].
  destruct (negb (truthy (b_name req)) || _ || _ || _ || _ || _) eqn:Ereq;
    [left; eexists; split; [|intros up; reflexivity]; now left|].
  unfold user_findFirst_taken, str_or, str_or_null, date_arg, upper_arg,
    user_create, sendWelcomeEmail.
  unfold str_arg, bindA, retA, raiseA, get_accounts, put_accounts.
  cbn [now salt mail_up].
  destruct (b_username req) as [| |?|?|username];
    try (left; eexists; split; [|intros up; reflexivity]; now right).
  destruct (b_email req) as [| |?|?|email];
    try (left; eexists; split; [|intros up; reflexivity]; now right).
  destruct (find _ (accounts s)) as [taken|] eqn:Hfree;
    [left; eexists; split; [|intros up; reflexivity]; now left|].
  destruct (b_password req) as [| |?|?|password];
    try (left; eexists; split; [|intros up; reflexivity]; now right).
  destruct (truthy (b_user_img req)) eqn:Eimg;
    [destruct (b_user_img req) as [| |?|?|img];
     try (left; eexists; split; [|intros up; reflexivity]; now right)|].
  all: destruct (truthy (b_address req)) eqn:Eaddr;
    [destruct (b_address req) as [| |?|?|address];
     try (left; eexists; split; [|intros up; reflexivity]; now right)|].
  all: destruct (truthy (b_dob req)) eqn:Edob;
    [destruct (b_dob req) as [| |?|?|dob]|].
  all: try discriminate Edob.
  all: try (left; eexists; split; [|intros up; reflexivity]; now right).
  all: try (destruct (new_Date dob)).
  all: try match goal with
           | |- context [Z.abs ?n <=? ?m] => destruct (Z.abs n <=? m)
           end.
  all: try (left; eexists; split; [|intros up; reflexivity]; now right).
  all: destruct (b_gender req) as [| |?|?|gender];
    try (left; eexists; split; [|intros up; reflexivity]; now right).
  all: destruct (b_name req) as [| |?|?|name];
    try (left; eexists; split; [|intros up; reflexivity]; now right).
  all: destruct (b_phone req) as [| |?|?|phone];
    try (left; eexists; split; [|intros up; reflexivity]; now right).
  all: cbn [accounts account_seq outbox].
  all: match goal with
       | |- context [schema_accepts ?a ?l] => destruct (schema_accepts a l) eqn:Hacc
       end; [|left; eexists; split; [|intros up; reflexivity]; now right].
  all: right.
  all: match type of Hacc with
       | schema_accepts ?a _ = true => exists a, password, gender
       end.
  all: repeat match goal with |- _ /\ _ => split end.
  all: try (intros up; destruct up; cbn; rewrite ?app_nil_r; reflexivity).
  all: try reflexivity; try assumption; try discriminate; try congruence.
Qed.

Lemma register_cases (env : Env) (req : AccountRequest) (s : Accounts) :
  let r := register_ env req s in
  (snd r = s /\ (a_status (fst r) = 400 \/ a_status (fst r) = 500))
  \/ (exists a p g,
        fst r = jsonA 201 (ARegistered (jwt_sign (now env) (a_id a))
                             "User registered successfully" a)
        /\ snd r = mkAccounts (accounts s ++ [a]) (account_seq s + 1)
                     (outbox s ++ if mail_up env
                                  then [mailOptions EMAIL_USER (a_email a) (a_name a)]
                                  else [])
        /\ a_id a = account_seq s
        /\ b_name req = JStr (a_name a) /\ b_username req = JStr (a_username a)
        /\ b_phone req = JStr (a_phone a) /\ b_email req = JStr (a_email a)
        /\ b_gender req = JStr g /\ a_gender a = toUpperCase g
        /\ b_password req = JStr p /\ a_password a = bcrypt_hash (salt env) p
        /\ find (fun x => (a_username x =? a_username a)%string
                          || (a_email x =? a_email a)%string) (accounts s) = None
        /\ schema_accepts a (accounts s) = true
        /\ (truthy (b_user_img req) = false -> a_user_img a = default_user_img)
        /\ (truthy (b_user_img req) = true -> b_user_img req = JStr (a_user_img a))
        /\ (truthy (b_address req) = false -> a_address a = None)
        /\ (truthy (b_dob req) = false -> a_dob a = None)).
Proof.
  cbv zeta. destruct env as [clock salt0 up]. cbn [now salt mail_up].
  destruct (register_cases_mail clock salt0 req s)
    as [(r & Hst & Hr) | (a & p & g & Hr & Hrest)].
  - left. rewrite Hr. split; [reflexivity | exact Hst].
  - right. exists a, p, g. rewrite Hr. split; [reflexivity|]. split; [reflexivity|].
    exact Hrest.
Qed.



Lemma taken_none (username email : string) (l : list Account) :
  find (fun x => (a_username x =? username)%string || (a_email x =? email)%string) l = None ->
  ~ In username (map a_username l) /\ ~ In email (map a_email l).
Proof.
  intros Hnone. split; intros Hin; apply in_map_iff in Hin as (x & Hx & Hin);
    pose proof (find_none _ _ Hnone x Hin) as Hf; simpl in Hf;
    apply orb_false_iff in Hf as [Hf1 Hf2];
    [apply String.eqb_neq in Hf1 | apply String.eqb_neq in Hf2]; congruence.
Qed.

Lemma NoDup_snoc {A} (l : list A) (x : A) : NoDup l -> ~ In x l -> NoDup (l ++ [x]).
Proof.
  intros Hl Hx. apply NoDup_app; [exact Hl | repeat constructor; simpl; tauto |].
  intros y Hy [<-|[]]. contradiction.
Qed.

(** X15.  [register] keeps user names and e-mail addresses unshared: if
    no two rows share a user name or an e-mail address before a call,
    none do after it, whatever the request. *)
Theorem register_keeps_names_unique (env : Env) (req : AccountRequest) (s : Accounts) :
  names_unique s -> names_unique (snd (register_ env req s)).
Proof.
  intros [Hu He].
  destruct (register_cases env req s) as [[-> _] | (a & p & g & _ & -> & Hrest)];
    [split; assumption|].
  destruct Hrest as (_ & _ & _ & _ & _ & _ & _ & _ & _ & Hfree & _).
  destruct (taken_none _ _ _ Hfree) as [Hnu Hne].
  split; simpl; rewrite map_app; simpl; now apply NoDup_snoc.
Qed.

Section RegisterThenLogin.

Variable bcrypt_compare : string -> string -> bool.

Local Notation "'login_'" := (login jwt_sign bcrypt_compare).


End RegisterThenLogin.

(** X17.  [register] leaves no trace unless it answers 201: a request
    that is answered otherwise (400 or 500, there is no further answer)
    adds no row, moves no sequence and sends no mail; a 201 adds exactly
    one row, under the former value of the sequence. *)
Theorem register_writes_only_on_201 (env : Env) (req : AccountRequest) (s : Accounts) :
  let r := register_ env req s in
  In (a_status (fst r)) [201; 400; 500]
  /\ (a_status (fst r) <> 201 -> snd r = s)
  /\ (a_status (fst r) = 201 ->
      exists a, accounts (snd r) = (accounts s ++ [a])%list
        /\ a_id a = account_seq s
        /\ account_seq (snd r) = account_seq s + 1).
Proof.
  cbv zeta.
  destruct (register_cases env req s)
    as [[Hs [H4|H5]] | (a & p & g & Hf & Hs & Hid & _)].
  - rewrite H4. split; [simpl; tauto|]. split; [auto | discriminate].
  - rewrite H5. split; [simpl; tauto|]. split; [auto | discriminate].
  - rewrite Hf, Hs. simpl. split; [tauto|]. split; [congruence|].
    intros _. exists a. repeat split. exact Hid.
Qed.

(** X18.  A registration does not depend on the welcome mail: whether
    the transport delivers or fails, the answer, the rows and the
    sequence are the same.  The mail is handed over only on a 201, to the
    address of the new row, and a failing transport sends none. *)
Theorem register_survives_mail_failure (clock : Z) (salt0 : string)
    (req : AccountRequest) (s : Accounts) :
  let up := register_ (mkEnv clock salt0 true) req s in
  let down := register_ (mkEnv clock salt0 false) req s in
  fst up = fst down
  /\ accounts (snd up) = accounts (snd down)
  /\ account_seq (snd up) = account_seq (snd down)
  /\ outbox (snd down) = outbox s
  /\ (a_status (fst up) <> 201 -> outbox (snd up) = outbox s)
  /\ (forall token message a,
      fst up = jsonA 201 (ARegistered token message a) ->
      outbox (snd up)
      = (outbox s ++ [mailOptions EMAIL_USER (a_email a) (a_name a)])%list).
Proof.
  cbv zeta.
  destruct (register_cases_mail clock salt0 req s)
    as [(r & Hst & Hr) | (a & p & g & Hr & _)]; rewrite !Hr; cbn [fst snd].
  - repeat split.
    intros token message a ->. simpl in Hst. destruct Hst; discriminate.
  - cbn [accounts account_seq outbox a_status a_body jsonA].
    repeat split; try (now rewrite app_nil_r); try congruence.
    intros token message a' [= _ _ <-]. reflexivity.
Qed.


(** X20.  A registration whose user name or e-mail address a stored row
    already has is answered 400 and changes nothing. *)
Theorem register_taken_name (env : Env) (req : AccountRequest) (s : Accounts)
    (name username phone gender email password : string) (x : Account) :
  required_text req name username phone gender email password ->
  In x (accounts s) ->
  a_username x = username \/ a_email x = email ->
  register_ env req s
  = (jsonA 400 (AError "Username or email is already taken"), s).
Proof.
  intros (Hn & Hu & Hp & Hg & He & Hpw & Nn & Nu & Np & Ng & Ne & Npw) Hin Htaken.
  unfold register, try_catchA.
  rewrite Hn, Hu, Hp, Hg, He, Hpw.
  rewrite !truthy_text by assumption. cbn [negb orb].
  unfold user_findFirst_taken, str_arg, bindA, retA, get_accounts.
  destruct (find _ (accounts s)) as [taken|] eqn:Hfind; [reflexivity|].
  exfalso. pose proof (find_none _ _ Hfind x Hin) as Hf. simpl in Hf.
  apply orb_false_iff in Hf as [Hf1 Hf2].
  apply String.eqb_neq in Hf1, Hf2. tauto.
Qed.


End RegisterFacts.

(* ================================================================== *)
(** ** The further theorems on the sample data *)




Lemma getProducts_ordered_witness :
  Sorted (fun a b => price_leb b a = true)
    (listing_data (fst (getProducts descending_query sample_db))).
Proof.
  pose proof (getProducts_ordered descending_query sample_db price_leb eq_refl eq_refl
                ltac:(discriminate) ltac:(discriminate)) as [_ H].
  apply H. exists "down". split; [reflexivity | discriminate].
Defined.

Lemma list_filters_ignore_case_witness :
  w_Colors (buildWhere (mkQuery None None None None None None None (Some "red, Blue")
                          None None None None))
  = w_Colors (buildWhere (mkQuery None None None None None None None (Some "RED, bLUE")
                            None None None None)).
Proof.
  destruct (list_filters_ignore_case
              (mkQuery None None None None None None None (Some "red, Blue")
                       None None None None)
              (mkQuery None None None None None None None (Some "RED, bLUE")
                       None None None None)
              "red, Blue" "RED, bLUE" eq_refl) as [H _].
  exact (H eq_refl eq_refl).
Defined.

Lemma unverified_token_is_500_witness :
  addToCart sample_verify (add_req (Some "Bearer forged") (JNum 7) JUndefined) sample_db
  = (json 500 (BError "Failed to add product to cart"), sample_db).
Proof.
  destruct (unverified_token_is_500 sample_verify
              (add_req (Some "Bearer forged") (JNum 7) JUndefined) sample_db
              eq_refl eq_refl) as [H _].
  exact (H eq_refl).
Defined.

Lemma sample_db_with_line_keyed : cart_keyed sample_db_with_line.
Proof.
  split; [simpl; repeat constructor; simpl; intuition discriminate
         | repeat constructor; simpl; lia].
Qed.

Lemma addToCart_other_pairs_untouched_witness :
  lines_of 4 7
    (snd (addToCart sample_verify (add_req (Some "Bearer tok-ann") (JNum 7) (JNum 3))
            sample_db_with_line))
  = [mkCartLine 2 4 7 1].
Proof.
  rewrite (addToCart_other_pairs_untouched sample_verify
             (add_req (Some "Bearer tok-ann") (JNum 7) (JNum 3)) sample_db_with_line 4 7
             sample_db_with_line_keyed).
  - reflexivity.
  - intros [H _]. discriminate H.
Defined.


Lemma addToCart_keeps_quantities_positive_witness :
  Forall (fun l => 1 <= c_count l)
    (cart (snd (addToCart sample_verify (add_req (Some "Bearer tok-ann") (JNum 7) (JNum 3))
                  sample_db_with_line))).
Proof.
  apply (addToCart_keeps_quantities_positive sample_verify).
  - repeat constructor; simpl; lia.
  - intros c [= <-]. lia.
Defined.

Lemma addToCart_text_for_number_witness :
  addToCart sample_verify (add_req (Some "Bearer tok-ann") (JStr "7") JUndefined)
    sample_db_with_line
  = (json 500 (BError "Failed to add product to cart"), sample_db_with_line).
Proof.
  destruct (addToCart_text_for_number sample_verify
              (add_req (Some "Bearer tok-ann") (JStr "7") JUndefined)
              sample_db_with_line 1 eq_refl) as [H _]; [discriminate|].
  apply (H "7" eq_refl). discriminate.
Defined.

Lemma login_same_refusal_witness :
  login sample_sign sample_compare sample_env []
    (login_req (JStr "bob") (JStr "opensesame")) sample_accounts
  = login sample_sign sample_compare sample_env []
      (login_req (JStr "ann") (JStr "guess")) sample_accounts.
Proof.
  rewrite (login_same_refusal sample_sign sample_compare sample_env []
             (login_req (JStr "bob") (JStr "opensesame")) sample_accounts
             "bob" "opensesame" eq_refl eq_refl);
    try discriminate; [|left; reflexivity].
  rewrite (login_same_refusal sample_sign sample_compare sample_env []
             (login_req (JStr "ann") (JStr "guess")) sample_accounts
             "ann" "guess" eq_refl eq_refl);
    try discriminate; [reflexivity|].
  right. eexists. split; reflexivity.
Defined.


Lemma sample_accounts_unique : names_unique sample_accounts.
Proof. split; simpl; repeat constructor; simpl; tauto. Qed.

Lemma register_keeps_names_unique_witness :
  names_unique
    (snd (register sample_sign sample_hash sample_Date sample_schema "shop@example.org"
            sample_env
            (register_req "Bob" "bob" "555-0101" "male" "bob@example.org" "hunter2")
            sample_accounts)).
Proof.
  apply (register_keeps_names_unique sample_sign sample_hash sample_Date sample_schema
           "shop@example.org"), sample_accounts_unique.
Defined.



Lemma register_taken_name_witness :
  register sample_sign sample_hash sample_Date sample_schema "shop@example.org" sample_env
    (register_req "Ann B" "annb" "555-0102" "female" "ann@example.org" "s3cret")
    sample_accounts
  = (jsonA 400 (AError "Username or email is already taken"), sample_accounts).
Proof.
  apply (register_taken_name sample_sign sample_hash sample_Date sample_schema
           "shop@example.org" sample_env _ sample_accounts
           "Ann B" "annb" "555-0102" "female" "ann@example.org" "s3cret"
           (mkAccount 1 "Ann" "ann" default_user_img "555-0100" None None "FEMALE"
                      "ann@example.org" (sample_hash "s4lt" "opensesame"))).
  - repeat split; try reflexivity; discriminate.
  - now left.
  - now right.
Defined.

